(** * The EDA kernel command loop ([src/main/kernel.py])

    A shallow embedding of the line-oriented command interpreter: the
    process-wide [dataframes] dictionary, [execute_code], and the body of
    [main] (decode a line, dispatch on its [type], handle Load / Execute /
    GetInfo, print the end-of-output marker).

    The three collaborators the kernel only calls (the JSON decoder, the
    pandas readers and renderers, and [exec]) are the fields of the
    [Runtime] class; everything the kernel itself does (membership tests,
    suffix tests, dictionary updates, exception handlers, the texts it
    prints) is defined here. *)

From Stdlib Require Import String Ascii List ZArith Bool Lia.
From Stdlib Require Import SpecFloat.
Import ListNotations.
Local Open Scope string_scope.
Local Open Scope list_scope.
Set Warnings "-register-all".

(** ** Python values decoded from a JSON line *)

(** What [json.loads] can return: [None], [bool], [int], [float] (binary
    floats, including the constants NaN and Infinity that Python's decoder
    accepts), [str], [list] and [dict] with string keys.  A [PDict] lists
    the items of the decoded dictionary, each key once. *)
Inductive pyval : Type :=
| PNone
| PBool (b : bool)
| PInt (z : Z)
| PFloat (f : spec_float)
| PStr (s : string)
| PList (items : list pyval)
| PDict (items : list (string * pyval)).

(** [type(v).__name__], as it appears in the interpreter's error texts. *)
Definition type_name (v : pyval) : string :=
  match v with
  | PNone => "NoneType"
  | PBool _ => "bool"
  | PInt _ => "int"
  | PFloat _ => "float"
  | PStr _ => "str"
  | PList _ => "list"
  | PDict _ => "dict"
  end.

(** ** Exceptions *)

(** The part of the exception hierarchy the handlers of the kernel tell
    apart: [except json.JSONDecodeError] and [except Exception]. *)
Inductive exc_class : Type :=
| JSONDecodeError                          (* json.JSONDecodeError, a ValueError *)
| ValueError
| TypeError
| AttributeError
| ExceptionSubclass (name : string)        (* any other class derived from Exception *)
| BaseExceptionOnly (name : string).       (* SystemExit, KeyboardInterrupt, ...:
                                              BaseException but not Exception *)

Record exc : Type := mkExc { exc_class_of : exc_class; exc_msg : string }.

(** [isinstance(e, Exception)]. *)
Definition is_Exception (e : exc) : bool :=
  match exc_class_of e with
  | BaseExceptionOnly _ => false
  | _ => true
  end.

(** [isinstance(e, json.JSONDecodeError)]. *)
Definition is_JSONDecodeError (e : exc) : bool :=
  match exc_class_of e with
  | JSONDecodeError => true
  | _ => false
  end.

Inductive outcome (A : Type) : Type :=
| Normal (a : A)
| Raised (e : exc).
Arguments Normal {A} a.
Arguments Raised {A} e.

(** ** Strings *)

Definition nl : string := String (ascii_of_nat 10) EmptyString.

(** [sub in s] for two strings. *)
Fixpoint str_contains (sub s : string) : bool :=
  String.prefix sub s
  || match s with
     | EmptyString => false
     | String _ rest => str_contains sub rest
     end.

(** [s.endswith(suffix)]. *)
Definition endswith (s suffix : string) : bool :=
  let n := String.length s in
  let m := String.length suffix in
  (m <=? n)%nat && String.eqb (substring (n - m) m s) suffix.


(** ** Dictionary keys and dictionaries *)

(** Keys of a Python dictionary, up to the equality a dictionary uses
    ([hash] and [==]): [True == 1 == 1.0] is one key, numbers compare by
    their exact value, a string equals only itself.  A finite number is
    kept as [m * 2^e] with [m] odd (or [0 * 2^0]). *)
Inductive pykey : Type :=
| KNone
| KStr (s : string)
| KNum (m e : Z)
| KInf (negative : bool)
| KNaN.

Fixpoint strip_twos (m : positive) (e : Z) : positive * Z :=
  match m with
  | xO m' => strip_twos m' (e + 1)
  | _ => (m, e)
  end.

Definition key_of_dyadic (negative : bool) (m : positive) (e : Z) : pykey :=
  let (m', e') := strip_twos m e in
  KNum (if negative then Z.neg m' else Z.pos m') e'.

Definition key_of_int (z : Z) : pykey :=
  match z with
  | Z0 => KNum 0 0
  | Zpos p => key_of_dyadic false p 0
  | Zneg p => key_of_dyadic true p 0
  end.

Definition key_of_float (f : spec_float) : pykey :=
  match f with
  | S754_zero _ => KNum 0 0
  | S754_infinity s => KInf s
  | S754_nan => KNaN
  | S754_finite s m e => key_of_dyadic s m e
  end.

(** The key a value is stored under; [None] for the unhashable [list] and
    [dict]. *)
Definition key_of (v : pyval) : option pykey :=
  match v with
  | PNone => Some KNone
  | PBool b => Some (KNum (if b then 1 else 0) 0)
  | PInt z => Some (key_of_int z)
  | PFloat f => Some (key_of_float f)
  | PStr s => Some (KStr s)
  | PList _ | PDict _ => None
  end.

Definition pykey_eq_dec (a b : pykey) : {a = b} + {a <> b}.
Proof.
  decide equality; auto using string_dec, Z.eq_dec, bool_dec.
Defined.

(** A dictionary: its items in insertion order. *)
Definition pydict (V : Type) : Type := list (pykey * V).

(** [d.get(k)]. *)
Fixpoint dict_get {V} (k : pykey) (d : pydict V) : option V :=
  match d with
  | [] => None
  | (k', v) :: rest => if pykey_eq_dec k' k then Some v else dict_get k rest
  end.

(** [d[k] = v]: the value of an existing key is replaced where it stands,
    a new key is added at the end. *)
Fixpoint dict_set {V} (k : pykey) (v : V) (d : pydict V) : pydict V :=
  match d with
  | [] => [(k, v)]
  | (k', v') :: rest =>
      if pykey_eq_dec k' k then (k', v) :: rest
      else (k', v') :: dict_set k v rest
  end.

Definition dict_keys {V} (d : pydict V) : list pykey := map fst d.

(** [command_data.get(field)] on a decoded JSON object: the value, or
    [None] when the field is missing. *)
Fixpoint json_get (field : string) (items : list (string * pyval)) : pyval :=
  match items with
  | [] => PNone
  | (k, v) :: rest => if String.eqb k field then v else json_get field rest
  end.

(** [needle in container] for a string [needle]: substring test on a
    [str], element test on a [list], key test on a [dict]; the other
    values are not containers and the test raises a [TypeError] (with the
    text CPython gives it up to version 3.13). *)
Definition py_in (needle : string) (container : pyval) : outcome bool :=
  match container with
  | PStr s => Normal (str_contains needle s)
  | PList items =>
      Normal (existsb (fun x => match x with
                                | PStr s => String.eqb s needle
                                | _ => false
                                end) items)
  | PDict items => Normal (existsb (fun kv => String.eqb (fst kv) needle) items)
  | _ => Raised (mkExc TypeError
                   ("argument of type '" ++ type_name container ++ "' is not iterable"))
  end.

(** ** The collaborators of the kernel *)

Inductive channel : Type := Stdout | Stderr.

(** What a name of the execution environment is bound to. *)
Inductive pyobj (Frame Obj : Type) : Type :=
| PandasModule                  (* the module [pd] *)
| FrameObj (df : Frame)         (* a DataFrame of the dataset table *)
| OtherObj (o : Obj).           (* anything else executed code binds *)
Arguments PandasModule {Frame Obj}.
Arguments FrameObj {Frame Obj} df.
Arguments OtherObj {Frame Obj} o.

(** How a call of [exec(code, globals)] ends: the globals dictionary as
    the code left it, what the code wrote to the two streams, and whether
    it returned or raised. *)
Record exec_result (Frame Obj World : Type) : Type := mkExecResult {
  exec_outcome : outcome unit;
  exec_final_globals : pydict (pyobj Frame Obj);
  exec_writes : list (channel * string);
  exec_world : World
}.
Arguments mkExecResult {Frame Obj World}.
Arguments exec_outcome {Frame Obj World}.
Arguments exec_final_globals {Frame Obj World}.
Arguments exec_writes {Frame Obj World}.
Arguments exec_world {Frame Obj World}.

(** The JSON decoder, pandas and [exec].  [World] is everything outside
    the kernel's own variables that these calls read or change: the file
    system and the contents of the DataFrame objects.  [Frame] is a
    reference to a DataFrame object.  Executed code acts on the globals
    dictionary it is given, on the objects reachable from it and on the
    world; code that reaches into the interpreter to rebind the kernel's
    own module variables is outside this interface. *)
Class Runtime : Type := {
  World : Type;
  Frame : Type;
  Obj : Type;
  (** [json.loads(line)] *)
  json_loads : string -> outcome pyval;
  (** [str(v)] of a value that is not a string, as an f-string renders it *)
  py_str : pyval -> string;
  (** [pd.read_csv(path)], [pd.read_excel(path)], [pd.read_json(path)],
      [pd.read_parquet(path)] *)
  read_csv : string -> World -> outcome Frame * World;
  read_excel : string -> World -> outcome Frame * World;
  read_json : string -> World -> outcome Frame * World;
  read_parquet : string -> World -> outcome Frame * World;
  (** [df.info(buf=buffer); buffer.getvalue()] *)
  df_info : Frame -> World -> outcome string * World;
  (** [df.describe(include='all').to_string()] *)
  df_describe : Frame -> World -> outcome string * World;
  (** [df.head().to_string()]: pandas' [head] takes five rows *)
  df_head : Frame -> World -> outcome string * World;
  (** [exec(code, globals)] for a source text *)
  py_exec : string -> pydict (pyobj Frame Obj) -> World -> exec_result Frame Obj World
}.

(** ** The state of the process and its input/output trace *)

Inductive io_event : Type :=
| ReadLine (line : string)                           (* the loop takes the next line of stdin *)
| Print (ch : channel) (text : string) (flush : bool) (* a [print] call of the kernel *)
| Wrote (ch : channel) (text : string).              (* a write made by executed code *)

Section Kernel.

Context {rt : Runtime}.

(** [dataframes] is the module-level dictionary of line 6; [trace] lists
    the input and output events in the order they happen. *)
Record state : Type := mkState {
  dataframes : pydict Frame;
  trace : list io_event;
  world : World
}.

(** Computations of the kernel: they change the state and return or
    raise; what was done before an exception stays done. *)
Definition M (A : Type) : Type := state -> outcome A * state.

Definition ret {A} (a : A) : M A := fun st => (Normal a, st).

Definition raise {A} (e : exc) : M A := fun st => (Raised e, st).

Definition bind {A B} (c : M A) (k : A -> M B) : M B :=
  fun st =>
    match c st with
    | (Normal a, st') => k a st'
    | (Raised e, st') => (Raised e, st')
    end.

(** [try: body  except C as e: handler e], where [catches] tells the
    instances of [C]. *)
Definition try_except {A} (catches : exc -> bool) (body : M A) (handler : exc -> M A) : M A :=
  fun st =>
    match body st with
    | (Normal a, st') => (Normal a, st')
    | (Raised e, st') => if catches e then handler e st' else (Raised e, st')
    end.

Definition emit (ev : io_event) : M unit :=
  fun st => (Normal tt, mkState (dataframes st) (trace st ++ [ev]) (world st)).

(** [print(text)], [print(text, file=sys.stderr)]. *)
Definition print (ch : channel) (text : string) : M unit := emit (Print ch text false).

(** A call into pandas: it sees and changes the world only. *)
Definition call_lib {A} (f : World -> outcome A * World) : M A :=
  fun st =>
    let (r, w) := f (world st) in
    (r, mkState (dataframes st) (trace st) w).

Definition lift_outcome {A} (r : outcome A) : M A := fun st => (r, st).

End Kernel.

Declare Scope kernel_scope.
Delimit Scope kernel_scope with kernel.
Notation "x <- c ;; k" := (bind c (fun x => k))
  (at level 61, c at next level, right associativity) : kernel_scope.
Notation "c ;;; k" := (bind c (fun _ => k))
  (at level 61, right associativity) : kernel_scope.

(** ** The kernel *)

Section KernelCode.

Context {rt : Runtime}.
Local Open Scope kernel_scope.

(** How an f-string renders a field of the command: a string as it is,
    anything else through [str]. *)
Definition fmt (v : pyval) : string :=
  match v with
  | PStr s => s
  | _ => py_str v
  end.

Definition sentinel : string := "<END_OF_OUTPUT>".

(** *** [execute_code] (lines 8-16) *)

(** [{'pd': pd, **dataframes}]: a new dictionary that starts with [pd]
    and then receives every item of [dataframes] in order, a later item
    replacing an earlier one with the same key. *)
Definition exec_globals (d : pydict Frame) : pydict (pyobj Frame Obj) :=
  fold_left (fun g kv => dict_set (fst kv) (FrameObj (snd kv)) g) d
            [(KStr "pd", PandasModule)].

(** [exec(code_to_exec, exec_globals)].  The dictionary the code leaves
    behind is a local of [execute_code] and is dropped on return. *)
Definition run_exec (code_to_exec : pyval) (globals : pydict (pyobj Frame Obj)) : M unit :=
  match code_to_exec with
  | PStr code =>
      fun st =>
        let r := py_exec code globals (world st) in
        (exec_outcome r,
         mkState (dataframes st)
                 (trace st ++ map (fun w => Wrote (fst w) (snd w)) (exec_writes r))
                 (exec_world r))
  | _ => raise (mkExc TypeError "exec() arg 1 must be a string, bytes or code object")
  end.

Definition execute_error_text (e : exc) : string := "PYTHON_ERROR: " ++ exc_msg e.

Definition execute_code (code_to_exec : pyval) : M unit :=
  try_except is_Exception
    (fun st => run_exec code_to_exec (exec_globals (dataframes st)) st)
    (fun e => print Stderr (execute_error_text e)).

(** *** The Load branch (lines 25-42) *)

(** Line 37: [ValueError(f"Unsupported file type for: {path}")]. *)
Definition unsupported (p : string) : exc :=
  mkExc ValueError ("Unsupported file type for: " ++ p).

(** Lines 28-37: the reader is chosen by the end of the path. *)
Definition read_table (path : pyval) : M Frame :=
  match path with
  | PStr p =>
      if endswith p ".csv" then call_lib (read_csv p)
      else if endswith p ".xlsx" then call_lib (read_excel p)
      else if endswith p ".json" then call_lib (read_json p)
      else if endswith p ".parquet" then call_lib (read_parquet p)
      else raise (unsupported p)
  | _ => raise (mkExc AttributeError
                  ("'" ++ type_name path ++ "' object has no attribute 'endswith'"))
  end.

(** Line 39: [dataframes[var_name] = df]. *)
Definition store_frame (var_name : pyval) (df : Frame) : M unit :=
  match key_of var_name with
  | Some k =>
      fun st => (Normal tt, mkState (dict_set k df (dataframes st)) (trace st) (world st))
  | None => raise (mkExc TypeError ("unhashable type: '" ++ type_name var_name ++ "'"))
  end.

Definition load_success_text (path var_name : pyval) : string :=
  "Successfully loaded '" ++ fmt path ++ "' into DataFrame '" ++ fmt var_name ++ "'.".

Definition load_failure_text (path : pyval) (e : exc) : string :=
  "PYTHON_ERROR: Failed to load data from " ++ fmt path ++ ". Error: " ++ exc_msg e.

(** Lines 28-40, the body of the inner [try]. *)
Definition load_attempt (path var_name : pyval) : M unit :=
  df <- read_table path ;;
  store_frame var_name df ;;;
  print Stdout (load_success_text path var_name).

Definition handle_load (command_data : list (string * pyval)) : M unit :=
  let path := json_get "path" command_data in
  let var_name := json_get "varName" command_data in
  try_except is_Exception
    (load_attempt path var_name)
    (fun e => print Stderr (load_failure_text path e)).

(** *** The GetInfo branch (lines 49-60) *)

(** Line 50: [dataframes.get(var_name)]. *)
Definition lookup_frame (var_name : pyval) : M (option Frame) :=
  match key_of var_name with
  | Some k => fun st => (Normal (dict_get k (dataframes st)), st)
  | None => raise (mkExc TypeError ("unhashable type: '" ++ type_name var_name ++ "'"))
  end.

(** The f-string of line 58. *)
Definition report_text (var_name : pyval) (info_str description_str head_str : string) : string :=
  "--- METADATA FOR " ++ fmt var_name ++ " ---" ++ nl ++ nl
  ++ "**Info:**" ++ nl ++ info_str ++ nl
  ++ "**Descriptive Statistics:**" ++ nl ++ description_str ++ nl ++ nl
  ++ "**First 5 Rows:**" ++ nl ++ head_str.

Definition not_found_text (var_name : pyval) : string :=
  "PYTHON_ERROR: DataFrame '" ++ fmt var_name ++ "' not found.".

Definition handle_get_info (command_data : list (string * pyval)) : M unit :=
  let var_name := json_get "varName" command_data in
  found <- lookup_frame var_name ;;
  match found with
  | Some df =>
      info_str <- call_lib (df_info df) ;;
      description_str <- call_lib (df_describe df) ;;
      head_str <- call_lib (df_head df) ;;
      print Stdout (report_text var_name info_str description_str head_str)
  | None => print Stderr (not_found_text var_name)
  end.

(** *** The loop (lines 19-65) *)

(** Lines 22-60: the [if]/[elif] chain on [command_type]. *)
Definition dispatch (command_data : list (string * pyval)) : M unit :=
  let command_type := json_get "type" command_data in
  is_load <- lift_outcome (py_in "LoadCommand" command_type) ;;
  if is_load then handle_load command_data
  else
    is_execute <- lift_outcome (py_in "ExecuteCommand" command_type) ;;
    if is_execute then execute_code (json_get "code" command_data)
    else
      is_get_info <- lift_outcome (py_in "GetInfoCommand" command_type) ;;
      if is_get_info then handle_get_info command_data
      else ret tt.

(** Lines 21-60, the body of the outer [try]: [command_data.get] needs a
    dictionary. *)
Definition decode_and_dispatch (line : string) : M unit :=
  command_data <- lift_outcome (json_loads line) ;;
  match command_data with
  | PDict items => dispatch items
  | _ => raise (mkExc AttributeError
                  ("'" ++ type_name command_data ++ "' object has no attribute 'get'"))
  end.

Definition invalid_json_text (e : exc) : string :=
  "PYTHON_ERROR: Invalid JSON received. " ++ exc_msg e.

Definition sentinel_event : io_event := Print Stdout sentinel true.

(** Lines 20-65, one turn of the loop: the [try] with its only handler,
    then the marker, printed outside the [try]. *)
Definition handle_line (line : string) : M unit :=
  try_except is_JSONDecodeError
    (decode_and_dispatch line)
    (fun e => print Stderr (invalid_json_text e)) ;;;
  emit sentinel_event.

Definition process_line (line : string) : M unit :=
  emit (ReadLine line) ;;; handle_line line.

(** [for line in sys.stdin: ...], on the lines the iterator yields: an
    exception that leaves a turn leaves the loop and the process. *)
Fixpoint main (lines : list string) : M unit :=
  match lines with
  | [] => ret tt
  | line :: rest => process_line line ;;; main rest
  end.

End KernelCode.

(** ** Measuring a trace *)

(** The marker lines of the loop: a [print] of the kernel on standard
    output whose text is the marker.  Writes of executed code are other
    events. *)
Definition is_sentinel (ev : io_event) : bool :=
  match ev with
  | Print Stdout text _ => String.eqb text sentinel
  | _ => false
  end.

Definition is_read (ev : io_event) : bool :=
  match ev with
  | ReadLine _ => true
  | _ => false
  end.

Definition count_sentinels (tr : list io_event) : nat :=
  List.length (filter is_sentinel tr).

(** An event of the handling of a line: neither a read nor a marker. *)
Definition quiet (ev : io_event) : bool :=
  negb (is_read ev) && negb (is_sentinel ev).

(** The events of one completed turn of the loop. *)
Definition turn (line_and_body : string * list io_event) : list io_event :=
  ReadLine (fst line_and_body) :: snd line_and_body ++ [sentinel_event].


(** The three report parts of a DataFrame render, one after the other,
    from world [w] to world [w']. *)
Definition renders {rt : Runtime} (df : Frame) (w : World)
    (info_str description_str head_str : string) (w' : World) : Prop :=
  exists w1 w2,
    df_info df w = (Normal info_str, w1)
    /\ df_describe df w1 = (Normal description_str, w2)
    /\ df_head df w2 = (Normal head_str, w').


(** What the handling of a line may do to the state: append events that
    are neither reads nor markers, and keep the keys of [dataframes]
    pairwise different. *)
Definition handling_step {rt : Runtime} (st st' : state) : Prop :=
  (exists evs, trace st' = trace st ++ evs /\ forallb quiet evs = true)
  /\ (NoDup (dict_keys (dataframes st)) -> NoDup (dict_keys (dataframes st'))).

Definition stays_within {rt : Runtime} {A : Type} (c : M A) : Prop :=
  forall st, handling_step st (snd (c st)).


(** ** Readings the code does not bear out

    Stronger statements one may expect of the loop; each is refuted below
    on the runtime of [Demo]. *)



(** A type that contains the Execute tag runs the Execute handler. *)
Definition execute_tag_selects_execute : Prop :=
  forall (rt : Runtime) (items : list (string * pyval)) (ty : string) (st : state),
    json_get "type" items = PStr ty ->
    str_contains "ExecuteCommand" ty = true ->
    dispatch items st = execute_code (json_get "code" items) st.




(** ** A small runtime to run the kernel on

    A concrete instance of the collaborators, used by the examples: files
    hold small integer tables, the decoder knows the command lines listed
    in [known_commands], and [exec] knows a handful of source texts. *)
Module Demo.

Definition table : Type := list (string * list Z).

Inductive file : Type :=
| CsvFile (t : table)
| ExcelFile (t : table)
| JsonFile (t : table)
| ParquetFile (t : table).

Definition files : Type := list (string * file).

Fixpoint find_file (p : string) (w : files) : option file :=
  match w with
  | [] => None
  | (q, f) :: rest => if String.eqb q p then Some f else find_file p rest
  end.

Definition no_such_file (p : string) : exc :=
  mkExc (ExceptionSubclass "FileNotFoundError")
        ("[Errno 2] No such file or directory: '" ++ p ++ "'").

Definition reader (accept : file -> option table) (p : string) (w : files)
  : outcome table * files :=
  match find_file p w with
  | None => (Raised (no_such_file p), w)
  | Some f =>
      match accept f with
      | Some t => (Normal t, w)
      | None => (Raised (mkExc (ExceptionSubclass "ParserError") "Error tokenizing data"), w)
      end
  end.

Definition column_names (t : table) : string := String.concat ", " (map fst t).

Definition info (t : table) (w : files) : outcome string * files :=
  (Normal ("Data columns: " ++ column_names t)%string, w).

(** pandas refuses to describe a DataFrame that has no column. *)
Definition describe (t : table) (w : files) : outcome string * files :=
  match t with
  | [] => (Raised (mkExc ValueError "Cannot describe a DataFrame without columns"), w)
  | _ => (Normal ("count of " ++ column_names t)%string, w)
  end.

Definition head (t : table) (w : files) : outcome string * files :=
  (Normal ("rows of " ++ column_names t)%string, w).

Definition globals : Type := pydict (pyobj table unit).

Definition exec (code : string) (g : globals) (w : files) : exec_result table unit files :=
  if String.eqb code "raise SystemExit" then
    mkExecResult (Raised (mkExc (BaseExceptionOnly "SystemExit") "")) g [] w
  else if String.eqb code "raise ValueError('boom')" then
    mkExecResult (Raised (mkExc ValueError "boom")) g [] w
  else if String.eqb code "df = pd" then
    mkExecResult (Normal tt) (dict_set (KStr "df") PandasModule g) [] w
  else if String.eqb code "print(type(pd))" then
    mkExecResult (Normal tt) g
      [(Stdout,
        (match dict_get (KStr "pd") g with
         | Some PandasModule => "<class 'module'>"
         | Some (FrameObj _) => "<class 'pandas.core.frame.DataFrame'>"
         | _ => "<class 'object'>"
         end ++ nl)%string)] w
  else mkExecResult (Normal tt) g [] w.

Definition dq : string := String (ascii_of_nat 34) EmptyString.

(** The text of a JSON object whose values are strings. *)
Definition encode (fields : list (string * string)) : string :=
  "{" ++ String.concat "," (map (fun kv => (dq ++ fst kv ++ dq ++ ":" ++ dq ++ snd kv ++ dq)%string) fields)
  ++ "}".

Definition items_of (fields : list (string * string)) : list (string * pyval) :=
  map (fun kv => (fst kv, PStr (snd kv))) fields.

Definition decoded (fields : list (string * string)) : pyval := PDict (items_of fields).

Definition load_cmd (ty path name : string) : list (string * string) :=
  [("type", ty); ("path", path); ("varName", name)].
Definition execute_cmd (ty code : string) : list (string * string) :=
  [("type", ty); ("code", code)].
Definition get_info_cmd (ty name : string) : list (string * string) :=
  [("type", ty); ("varName", name)].

Definition known_commands : list (list (string * string)) :=
  [ [];
    load_cmd "LoadCommand" "data.csv" "df";
    load_cmd "LoadCommand" "book.xlsx" "df";
    load_cmd "LoadCommand" "rows.json" "df";
    load_cmd "LoadCommand" "cols.parquet" "df";
    load_cmd "LoadCommand" "notes.txt" "df";
    load_cmd "LoadCommand" "missing.csv" "df";
    load_cmd "LoadCommand" "empty.json" "df";
    load_cmd "LoadCommand" "data.csv" "pd";
    load_cmd "LoadCommandExecuteCommand" "data.csv" "df" ++ [("code", "print(type(pd))")];
    execute_cmd "ExecuteCommand" "raise SystemExit";
    execute_cmd "ExecuteCommand" "raise ValueError('boom')";
    execute_cmd "ExecuteCommand" "df = pd";
    execute_cmd "ExecuteCommand" "print(type(pd))";
    execute_cmd "ExecuteCommandGetInfoCommand" "df = pd";
    get_info_cmd "GetInfoCommand" "df";
    get_info_cmd "GetInfoCommand" "missing";
    get_info_cmd "PingCommand" "df" ].

Fixpoint loads_from (known : list (list (string * string))) (line : string) : outcome pyval :=
  match known with
  | [] => Raised (mkExc JSONDecodeError "Expecting value: line 1 column 1 (char 0)")
  | fields :: rest =>
      if String.eqb (encode fields) line then Normal (decoded fields)
      else loads_from rest line
  end.

Definition str (v : pyval) : string :=
  match v with
  | PNone => "None"
  | PBool true => "True"
  | PBool false => "False"
  | PStr s => s
  | _ => "<" ++ type_name v ++ ">"
  end.

#[export] Instance runtime : Runtime := {|
  World := files;
  Frame := table;
  Obj := unit;
  json_loads := loads_from known_commands;
  py_str := str;
  read_csv := reader (fun f => match f with CsvFile t => Some t | _ => None end);
  read_excel := reader (fun f => match f with ExcelFile t => Some t | _ => None end);
  read_json := reader (fun f => match f with JsonFile t => Some t | _ => None end);
  read_parquet := reader (fun f => match f with ParquetFile t => Some t | _ => None end);
  df_info := info;
  df_describe := describe;
  df_head := head;
  py_exec := exec
|}.

Definition numbers : table := [("x", [1; 2; 3]%Z); ("y", [4; 5; 6]%Z)].

Definition disk : files :=
  [ ("data.csv", CsvFile numbers);
    ("book.xlsx", ExcelFile numbers);
    ("rows.json", JsonFile numbers);
    ("cols.parquet", ParquetFile numbers);
    ("empty.json", JsonFile []);
    ("notes.txt", CsvFile numbers) ].

(** The process as it starts: [dataframes = {}], nothing read or written. *)
Definition start : state := mkState [] [] disk.

(** The process with the given table and an empty trace. *)
Definition holding (d : pydict table) : state := mkState d [] disk.

(** Command lines of the examples. *)
Definition load_data_as_df : list (string * string) := load_cmd "LoadCommand" "data.csv" "df".
Definition load_and_execute : list (string * string) :=
  load_cmd "LoadCommandExecuteCommand" "data.csv" "df" ++ [("code", "print(type(pd))")].
Definition execute_and_get_info : list (string * string) :=
  execute_cmd "ExecuteCommandGetInfoCommand" "df = pd".
Definition get_info_df : list (string * string) := get_info_cmd "GetInfoCommand" "df".
Definition ping : list (string * string) := get_info_cmd "PingCommand" "df".
Definition run_boom : list (string * string) :=
  execute_cmd "ExecuteCommand" "raise ValueError('boom')".
Definition run_assign : list (string * string) := execute_cmd "ExecuteCommand" "df = pd".

End Demo.

(** ** What a run writes and keeps *)

(** The events the kernel itself produces: the read of a line, the
    marker, and the six [print] statements of lines 16, 40, 42, 58, 60
    and 63. *)
Inductive kernel_event {rt : Runtime} : io_event -> Prop :=
| ke_read line : kernel_event (ReadLine line)
| ke_sentinel : kernel_event sentinel_event
| ke_loaded path var_name :
    kernel_event (Print Stdout (load_success_text path var_name) false)
| ke_load_failed path e :
    kernel_event (Print Stderr (load_failure_text path e) false)
| ke_execute_failed e :
    kernel_event (Print Stderr (execute_error_text e) false)
| ke_report var_name info_str description_str head_str :
    kernel_event (Print Stdout (report_text var_name info_str description_str head_str) false)
| ke_not_found var_name :
    kernel_event (Print Stderr (not_found_text var_name) false)
| ke_invalid_json e :
    kernel_event (Print Stderr (invalid_json_text e) false).

(** A relation between the state before and the state after that every
    run of [c] satisfies. *)
Definition respects {rt : Runtime} {A : Type} (R : state -> state -> Prop) (c : M A) : Prop :=
  forall st, R st (snd (c st)).

(** The [print] calls of the kernel among some events, the marker apart. *)
Definition is_message (ev : io_event) : bool :=
  match ev with
  | Print _ _ false => true
  | _ => false
  end.

Definition count_messages (evs : list io_event) : nat :=
  List.length (filter is_message evs).

(** A computation that prints nothing, whether it returns or raises. *)
Definition silent {rt : Runtime} {A : Type} (c : M A) : Prop :=
  forall st, exists evs,
    trace (snd (c st)) = trace st ++ evs /\ count_messages evs = 0%nat.

(** A computation that prints at most one message when it returns and
    none when it raises. *)
Definition frugal {rt : Runtime} {A : Type} (c : M A) : Prop :=
  forall st, exists evs,
    trace (snd (c st)) = trace st ++ evs
    /\ match fst (c st) with
       | Normal _ => (count_messages evs <= 1)%nat
       | Raised _ => count_messages evs = 0%nat
       end.

(** The state a turn is in once its line has been read. *)
Definition after_read {rt : Runtime} (st : state) (line : string) : state :=
  mkState (dataframes st) (trace st ++ [ReadLine line]) (world st).

(** A value [in] accepts on its right: a string, a list or a dictionary. *)
Definition is_container (v : pyval) : bool :=
  match v with
  | PStr _ | PList _ | PDict _ => true
  | _ => false
  end.

Definition is_object (v : pyval) : bool :=
  match v with
  | PDict _ => true
  | _ => false
  end.

Definition is_string (v : pyval) : bool :=
  match v with
  | PStr _ => true
  | _ => false
  end.

(** ** A runtime that decodes lines outside the protocol

    The runtime of [Demo] with a decoder that also knows a few lines that
    are valid JSON and no command of the protocol. *)
Module Loose.

Import Demo.

Definition untyped : string := "{" ++ dq ++ "type" ++ dq ++ ":7}".

Definition get_info_of_array : string :=
  "{" ++ dq ++ "type" ++ dq ++ ":" ++ dq ++ "GetInfoCommand" ++ dq ++ ","
  ++ dq ++ "varName" ++ dq ++ ":[]}".

Definition more_lines : list (string * pyval) :=
  [ ("[]", PList []);
    ("null", PNone);
    ("7", PInt 7);
    (untyped, PDict [("type", PInt 7)]);
    (get_info_of_array, PDict [("type", PStr "GetInfoCommand"); ("varName", PList [])]) ].

Fixpoint loads_more (known : list (string * pyval)) (line : string) : outcome pyval :=
  match known with
  | [] => loads_from known_commands line
  | (text, v) :: rest => if String.eqb text line then Normal v else loads_more rest line
  end.

#[export] Instance runtime : Runtime := {|
  World := files;
  Frame := table;
  Obj := unit;
  json_loads := loads_more more_lines;
  py_str := str;
  read_csv := reader (fun f => match f with CsvFile t => Some t | _ => None end);
  read_excel := reader (fun f => match f with ExcelFile t => Some t | _ => None end);
  read_json := reader (fun f => match f with JsonFile t => Some t | _ => None end);
  read_parquet := reader (fun f => match f with ParquetFile t => Some t | _ => None end);
  df_info := info;
  df_describe := describe;
  df_head := head;
  py_exec := exec
|}.

Definition start : state := mkState [] [] disk.

Definition holding (d : pydict table) : state := mkState d [] disk.

(** Commands with fields the protocol does not foresee. *)
Definition load_by_array : list (string * pyval) :=
  [ ("type", PList [PStr "xLoadCommandx"; PStr "LoadCommand"]);
    ("path", PStr "data.csv"); ("varName", PStr "df") ].
Definition load_nothing : list (string * pyval) :=
  [ ("type", PStr "LoadCommand"); ("varName", PStr "df") ].
Definition load_as_array : list (string * pyval) :=
  [ ("type", PStr "LoadCommand"); ("path", PStr "data.csv"); ("varName", PList []) ].
Definition load_as_one : list (string * pyval) :=
  [ ("type", PStr "LoadCommand"); ("path", PStr "data.csv"); ("varName", PInt 1) ].
Definition get_info_true : list (string * pyval) :=
  [ ("type", PStr "GetInfoCommand"); ("varName", PBool true) ].

End Loose.

(** * Properties *)

(** ** Strings: the membership and suffix tests mean what they say *)



Lemma prefix_append (sub s : string) :
  String.prefix sub s = true <-> exists post, s = (sub ++ post)%string.
Proof.
  revert s; induction sub as [|c sub IH]; intros s.
  - destruct s; simpl; (split; [intros _; eexists; reflexivity | intros _; reflexivity]).
  - destruct s as [|d s]; simpl.
    + split; [discriminate | intros [post H]; discriminate].
    + destruct (ascii_dec c d) as [->|Hne].
      * rewrite IH. split; intros [post H]; exists post; [now rewrite H | now inversion H].
      * split; [discriminate | intros [post H]; inversion H; subst; now elim Hne].
Qed.









(** ** Dictionaries *)

Section Dictionaries.

Context {V : Type}.
Implicit Types (d : pydict V) (k : pykey) (v : V).

Lemma dict_get_set_same k v d : dict_get k (dict_set k v d) = Some v.
Proof.
  induction d as [|[k' v'] d IH]; simpl.
  - destruct (pykey_eq_dec k k); [reflexivity | contradiction].
  - destruct (pykey_eq_dec k' k) as [E|N]; simpl.
    + destruct (pykey_eq_dec k' k); [reflexivity | contradiction].
    + destruct (pykey_eq_dec k' k); [contradiction | exact IH].
Qed.

Lemma dict_get_set_other k k' v d :
  k' <> k -> dict_get k' (dict_set k v d) = dict_get k' d.
Proof.
  intros Hne. induction d as [|[k0 v0] d IH]; simpl.
  - destruct (pykey_eq_dec k k'); [congruence | reflexivity].
  - destruct (pykey_eq_dec k0 k) as [E|N]; simpl.
    + destruct (pykey_eq_dec k0 k'); [congruence | reflexivity].
    + destruct (pykey_eq_dec k0 k'); [reflexivity | exact IH].
Qed.

Lemma dict_get_None k d : dict_get k d = None <-> ~ In k (dict_keys d).
Proof.
  induction d as [|[k' v'] d IH]; simpl.
  - tauto.
  - destruct (pykey_eq_dec k' k) as [E|N].
    + split; [discriminate | intros H; elim H; now left].
    + rewrite IH. tauto.
Qed.


(** Assigning to a key that is there changes no key; assigning to a new
    key adds it at the end. *)
Lemma dict_keys_set_present k v d :
  In k (dict_keys d) -> dict_keys (dict_set k v d) = dict_keys d.
Proof.
  induction d as [|[k' v'] d IH]; simpl; [tauto|].
  intros Hin. destruct (pykey_eq_dec k' k) as [E|N]; simpl; [reflexivity|].
  f_equal. apply IH. destruct Hin; [contradiction | assumption].
Qed.

Lemma dict_keys_set_absent k v d :
  ~ In k (dict_keys d) -> dict_keys (dict_set k v d) = dict_keys d ++ [k].
Proof.
  induction d as [|[k' v'] d IH]; simpl; [reflexivity|].
  intros Hout. destruct (pykey_eq_dec k' k) as [E|N]; simpl; [tauto|].
  f_equal. apply IH. tauto.
Qed.

Lemma dict_set_NoDup k v d :
  NoDup (dict_keys d) -> NoDup (dict_keys (dict_set k v d)).
Proof.
  intros Hnd. destruct (in_dec pykey_eq_dec k (dict_keys d)) as [Hin|Hout].
  - now rewrite dict_keys_set_present.
  - rewrite dict_keys_set_absent by assumption.
    apply NoDup_app; [assumption | repeat constructor; simpl; tauto |].
    intros x Hx [<-|[]]. contradiction.
Qed.

Lemma dict_set_length_present k v d :
  In k (dict_keys d) -> List.length (dict_set k v d) = List.length d.
Proof.
  intros Hin. pose proof (dict_keys_set_present k v d Hin) as H.
  apply (f_equal (@List.length _)) in H.
  unfold dict_keys in H. now rewrite !length_map in H.
Qed.

End Dictionaries.

(** ** The computations of the kernel, step by step *)

Section Steps.

Context {rt : Runtime}.
Local Open Scope kernel_scope.

Lemma handling_step_refl (st : state) : handling_step st st.
Proof.
  split; [|tauto]. exists []. now rewrite app_nil_r.
Qed.

Lemma handling_step_trans (a b c : state) :
  handling_step a b -> handling_step b c -> handling_step a c.
Proof.
  intros [(e1 & T1 & Q1) N1] [(e2 & T2 & Q2) N2]. split; [|tauto].
  exists (e1 ++ e2). rewrite T2, T1, app_assoc, forallb_app, Q1, Q2. now split.
Qed.

Lemma stays_ret {A} (a : A) : stays_within (ret a).
Proof. intros st. apply handling_step_refl. Qed.

Lemma stays_raise {A} (e : exc) : stays_within (@raise rt A e).
Proof. intros st. apply handling_step_refl. Qed.

Lemma stays_lift_outcome {A} (r : outcome A) : stays_within (lift_outcome r).
Proof. intros st. apply handling_step_refl. Qed.

Lemma stays_bind {A B} (c : M A) (k : A -> M B) :
  stays_within c -> (forall a, stays_within (k a)) -> stays_within (bind c k).
Proof.
  intros Hc Hk st. unfold bind. specialize (Hc st).
  destruct (c st) as [[a|e] st1]; simpl in *; [|exact Hc].
  eapply handling_step_trans; [exact Hc | apply Hk].
Qed.

Lemma stays_try_except {A} catches (body : M A) handler :
  stays_within body -> (forall e, stays_within (handler e)) ->
  stays_within (try_except catches body handler).
Proof.
  intros Hb Hh st. unfold try_except. specialize (Hb st).
  destruct (body st) as [[a|e] st1]; simpl in *; [exact Hb|].
  destruct (catches e); [|exact Hb].
  eapply handling_step_trans; [exact Hb | apply Hh].
Qed.

Lemma stays_call_lib {A} (f : World -> outcome A * World) : stays_within (call_lib f).
Proof.
  intros st. unfold call_lib. destruct (f (world st)) as [r w]. simpl.
  split; [|tauto]. exists []. now rewrite app_nil_r.
Qed.

Lemma stays_emit (ev : io_event) : quiet ev = true -> stays_within (emit ev).
Proof.
  intros Hq st. split; [|tauto]. exists [ev]. simpl. now rewrite Hq.
Qed.

Lemma stays_print_stderr (text : string) : stays_within (print Stderr text).
Proof. apply stays_emit. reflexivity. Qed.

(** A text that does not begin as the marker is not the marker. *)
Lemma stays_print_stdout (c : ascii) (text : string) :
  c <> "<"%char -> stays_within (print Stdout (String c text)).
Proof.
  intros Hc. apply stays_emit. unfold quiet. simpl.
  destruct (Ascii.eqb_spec c "<"%char); [contradiction | reflexivity].
Qed.

End Steps.

(** ** Every handler stays within the handling of its line *)

Section Handlers.

Context {rt : Runtime}.
Local Open Scope kernel_scope.

Lemma stays_run_exec code g : stays_within (run_exec code g).
Proof.
  destruct code; try apply stays_raise.
  intros st. simpl. split; [|tauto].
  eexists; split; [reflexivity|].
  induction (exec_writes _) as [|w ws IH]; [reflexivity | exact IH].
Qed.

Lemma stays_execute_code code : stays_within (execute_code code).
Proof.
  apply stays_try_except.
  - intros st. apply stays_run_exec.
  - intros e. apply stays_print_stderr.
Qed.

Lemma stays_read_table path : stays_within (read_table path).
Proof.
  destruct path; try apply stays_raise. simpl.
  repeat match goal with
         | |- context [if ?b then _ else _] => destruct b
         end; first [apply stays_call_lib | apply stays_raise].
Qed.

Lemma stays_store_frame var_name df : stays_within (store_frame var_name df).
Proof.
  unfold store_frame. destruct (key_of var_name) as [k|]; [|apply stays_raise].
  intros st. simpl. split.
  - exists []. now rewrite app_nil_r.
  - apply dict_set_NoDup.
Qed.

Lemma stays_handle_load command_data : stays_within (handle_load command_data).
Proof.
  apply stays_try_except.
  - apply stays_bind; [apply stays_read_table|]. intros df.
    apply stays_bind; [apply stays_store_frame|]. intros _.
    apply stays_print_stdout. discriminate.
  - intros e. apply stays_print_stderr.
Qed.

Lemma stays_lookup_frame var_name : stays_within (lookup_frame var_name).
Proof.
  unfold lookup_frame. destruct (key_of var_name); [|apply stays_raise].
  intros st. apply handling_step_refl.
Qed.

Lemma stays_handle_get_info command_data : stays_within (handle_get_info command_data).
Proof.
  apply stays_bind; [apply stays_lookup_frame|]. intros [df|].
  - repeat (apply stays_bind; [apply stays_call_lib|]; intros ?).
    apply stays_print_stdout. discriminate.
  - apply stays_print_stderr.
Qed.

Lemma stays_dispatch command_data : stays_within (dispatch command_data).
Proof.
  unfold dispatch.
  apply stays_bind; [apply stays_lift_outcome|]. intros [|]; [apply stays_handle_load|].
  apply stays_bind; [apply stays_lift_outcome|]. intros [|]; [apply stays_execute_code|].
  apply stays_bind; [apply stays_lift_outcome|]. intros [|];
    [apply stays_handle_get_info | apply stays_ret].
Qed.

Lemma stays_decode_and_dispatch line : stays_within (decode_and_dispatch line).
Proof.
  apply stays_bind; [apply stays_lift_outcome|].
  intros []; try apply stays_raise. apply stays_dispatch.
Qed.

(** The [try] statement of a turn: what lines 20-63 do before the marker. *)
Lemma stays_guarded_body line :
  stays_within (try_except is_JSONDecodeError (decode_and_dispatch line)
                  (fun e => print Stderr (invalid_json_text e))).
Proof.
  apply stays_try_except; [apply stays_decode_and_dispatch|].
  intros e. apply stays_print_stderr.
Qed.

(** One turn, unfolded. *)
Lemma process_line_unfold line st :
  process_line line st =
  match try_except is_JSONDecodeError (decode_and_dispatch line)
          (fun e => print Stderr (invalid_json_text e))
          (mkState (dataframes st) (trace st ++ [ReadLine line]) (world st)) with
  | (Normal _, st1) =>
      (Normal tt, mkState (dataframes st1) (trace st1 ++ [sentinel_event]) (world st1))
  | (Raised e, st1) => (Raised e, st1)
  end.
Proof.
  unfold process_line, handle_line, bind, emit.
  destruct (try_except _ _ _ _) as [[[]|e] st1]; reflexivity.
Qed.

(** The shape of one turn: the read, the events of the handling, and, when
    no exception leaves the [try] statement, the marker. *)
Lemma process_line_shape line st :
  exists body,
    forallb quiet body = true
    /\ (NoDup (dict_keys (dataframes st)) ->
        NoDup (dict_keys (dataframes (snd (process_line line st)))))
    /\ trace (snd (process_line line st)) =
       trace st ++ match fst (process_line line st) with
                   | Normal _ => turn (line, body)
                   | Raised _ => ReadLine line :: body
                   end.
Proof.
  rewrite process_line_unfold.
  set (st0 := mkState (dataframes st) (trace st ++ [ReadLine line]) (world st)).
  destruct (stays_guarded_body line st0) as [(body & Htr & Hq) Hnd].
  exists body. split; [exact Hq|].
  destruct (try_except _ _ _ st0) as [[[]|e] st1]; cbn in *.
  - split; [exact Hnd|]. rewrite Htr. unfold turn. cbn.
    now rewrite <- !app_assoc.
  - split; [exact Hnd|]. rewrite Htr. now rewrite <- app_assoc.
Qed.

End Handlers.

(** ** Dispatch on the [type] field *)

Section Dispatch.

Context {rt : Runtime}.

Implicit Types (items : list (string * pyval)) (ty : string) (st : state).

Lemma dispatch_string items ty st :
  json_get "type" items = PStr ty ->
  dispatch items st =
  if str_contains "LoadCommand" ty then handle_load items st
  else if str_contains "ExecuteCommand" ty then execute_code (json_get "code" items) st
  else if str_contains "GetInfoCommand" ty then handle_get_info items st
  else (Normal tt, st).
Proof.
  intros Hty. unfold dispatch. rewrite Hty. cbn [py_in].
  unfold bind, lift_outcome, ret.
  destruct (str_contains "LoadCommand" ty); [reflexivity|].
  destruct (str_contains "ExecuteCommand" ty); [reflexivity|].
  destruct (str_contains "GetInfoCommand" ty); reflexivity.
Qed.

Lemma decode_and_dispatch_object line items st :
  json_loads line = Normal (PDict items) ->
  decode_and_dispatch line st = dispatch items st.
Proof.
  intros Hdec. unfold decode_and_dispatch, bind, lift_outcome. now rewrite Hdec.
Qed.

(** A turn whose [try] statement ends normally ends with the marker. *)
Lemma process_line_normal line st st1 :
  try_except is_JSONDecodeError (decode_and_dispatch line)
    (fun e => print Stderr (invalid_json_text e))
    (mkState (dataframes st) (trace st ++ [ReadLine line]) (world st)) = (Normal tt, st1) ->
  process_line line st =
  (Normal tt, mkState (dataframes st1) (trace st1 ++ [sentinel_event]) (world st1)).
Proof. intros H. rewrite process_line_unfold, H. reflexivity. Qed.

(** C10. A type string that contains several of the three tags runs one
    handler, by the order of the [if]/[elif] chain: with "LoadCommand" in
    it the command is handled by the Load handler alone, whatever other
    tag it contains; with "ExecuteCommand" but not "LoadCommand" it is
    handled by the Execute handler alone, also when it contains
    "GetInfoCommand". *)
Theorem dispatch_precedence items ty st :
  json_get "type" items = PStr ty ->
  (str_contains "LoadCommand" ty = true ->
   dispatch items st = handle_load items st)
  /\ (str_contains "LoadCommand" ty = false ->
      str_contains "ExecuteCommand" ty = true ->
      dispatch items st = execute_code (json_get "code" items) st).
Proof.
  intros Hty. rewrite (dispatch_string _ _ _ Hty). split.
  - now intros ->.
  - now intros -> ->.
Qed.

(** C3, as the code has it. Dispatch is by substring containment on the
    [type] string, tried in the order Load, Execute, GetInfo: a type that
    contains "LoadCommand" runs the Load handler; one that contains
    "ExecuteCommand" and not "LoadCommand" runs the Execute handler; one
    that contains "GetInfoCommand" and neither of the other two runs the
    GetInfo handler; any other type string runs no handler and produces no
    diagnostic: the turn consists of the read and the marker, and leaves
    the table and the world as they were. *)
Theorem dispatch_by_containment items ty st :
  json_get "type" items = PStr ty ->
  (str_contains "LoadCommand" ty = true ->
   dispatch items st = handle_load items st)
  /\ (str_contains "LoadCommand" ty = false ->
      str_contains "ExecuteCommand" ty = true ->
      dispatch items st = execute_code (json_get "code" items) st)
  /\ (str_contains "LoadCommand" ty = false ->
      str_contains "ExecuteCommand" ty = false ->
      str_contains "GetInfoCommand" ty = true ->
      dispatch items st = handle_get_info items st)
  /\ (str_contains "LoadCommand" ty = false ->
      str_contains "ExecuteCommand" ty = false ->
      str_contains "GetInfoCommand" ty = false ->
      dispatch items st = (Normal tt, st)
      /\ forall line, json_loads line = Normal (PDict items) ->
           process_line line st =
           (Normal tt,
            mkState (dataframes st) (trace st ++ [ReadLine line; sentinel_event]) (world st))).
Proof.
  intros Hty. split; [|split; [|split]].
  - intros H. now rewrite (dispatch_string _ _ _ Hty), H.
  - intros H1 H2. now rewrite (dispatch_string _ _ _ Hty), H1, H2.
  - intros H1 H2 H3. now rewrite (dispatch_string _ _ _ Hty), H1, H2, H3.
  - intros H1 H2 H3. split.
    + now rewrite (dispatch_string _ _ _ Hty), H1, H2, H3.
    + intros line Hdec.
      rewrite (process_line_normal line st
                 (mkState (dataframes st) (trace st ++ [ReadLine line]) (world st))).
      * cbn. now rewrite <- app_assoc.
      * unfold try_except. rewrite (decode_and_dispatch_object _ _ _ Hdec).
        rewrite (dispatch_string _ _ _ Hty), H1, H2, H3. reflexivity.
Qed.

End Dispatch.

(** ** The Load branch *)

Section Load.

Context {rt : Runtime}.

Implicit Types (items : list (string * pyval)) (st : state) (p : string).


(** What the inner [try] body does once the table has been read. *)
Lemma load_attempt_unfold path var_name st :
  load_attempt path var_name st =
  match read_table path st with
  | (Raised e, st1) => (Raised e, st1)
  | (Normal df, st1) =>
      match key_of var_name with
      | None => (Raised (mkExc TypeError ("unhashable type: '" ++ type_name var_name ++ "'")), st1)
      | Some k =>
          (Normal tt,
           mkState (dict_set k df (dataframes st1))
                   (trace st1 ++ [Print Stdout (load_success_text path var_name) false])
                   (world st1))
      end
  end.
Proof.
  unfold load_attempt, bind. destruct (read_table path st) as [[df|e] st1]; [|reflexivity].
  unfold store_frame. destruct (key_of var_name); reflexivity.
Qed.

(** Reading a table changes the world only. *)
Lemma read_table_frame path st :
  dataframes (snd (read_table path st)) = dataframes st
  /\ trace (snd (read_table path st)) = trace st.
Proof.
  destruct path; try (split; reflexivity). cbn [read_table].
  repeat match goal with
         | |- context [if ?b then _ else _] => destruct b
         end;
    try (split; reflexivity);
    unfold call_lib;
    match goal with |- context [?f s (world st)] => destruct (f s (world st)) end;
    split; reflexivity.
Qed.

(** A failed attempt has changed neither the table nor the trace. *)
Lemma load_attempt_failure path var_name st e st1 :
  load_attempt path var_name st = (Raised e, st1) ->
  dataframes st1 = dataframes st /\ trace st1 = trace st.
Proof.
  rewrite load_attempt_unfold. pose proof (read_table_frame path st) as Hfr.
  destruct (read_table path st) as [[df|e'] st2]; cbn in Hfr.
  - destruct (key_of var_name); intros H; inversion H; subst. exact Hfr.
  - intros H; inversion H; subst. exact Hfr.
Qed.


End Load.

(** ** The loop *)

Section Loop.

Context {rt : Runtime}.

Implicit Types (lines : list string) (st : state) (body : list io_event).

Lemma main_cons line lines st :
  main (line :: lines) st =
  match process_line line st with
  | (Normal _, st1) => main lines st1
  | (Raised e, st1) => (Raised e, st1)
  end.
Proof. reflexivity. Qed.

Lemma count_sentinels_app (a b : list io_event) :
  count_sentinels (a ++ b) = (count_sentinels a + count_sentinels b)%nat.
Proof. unfold count_sentinels. now rewrite filter_app, length_app. Qed.

Lemma count_sentinels_quiet body :
  forallb quiet body = true -> count_sentinels body = 0%nat.
Proof.
  unfold count_sentinels. induction body as [|ev body IH]; cbn; [reflexivity|].
  rewrite andb_true_iff. unfold quiet at 1. rewrite andb_true_iff, !negb_true_iff.
  intros [[_ Hs] Hq]. rewrite Hs. now apply IH.
Qed.

Lemma count_sentinels_turn line body :
  forallb quiet body = true -> count_sentinels (turn (line, body)) = 1%nat.
Proof.
  intros Hq. unfold turn. cbn [fst snd].
  change (ReadLine line :: body ++ [sentinel_event])
    with ([ReadLine line] ++ body ++ [sentinel_event]).
  rewrite !count_sentinels_app, (count_sentinels_quiet _ Hq). reflexivity.
Qed.



End Loop.

(** ** Loading a dataset *)

Section LoadCommand.

Context {rt : Runtime}.

Implicit Types (items : list (string * pyval)) (st : state) (p : string).

(** A failure of the [Exception] hierarchy is caught and reported. *)
Lemma handle_load_failure items st e st1 :
  load_attempt (json_get "path" items) (json_get "varName" items) st = (Raised e, st1) ->
  is_Exception e = true ->
  handle_load items st =
  (Normal tt,
   mkState (dataframes st)
           (trace st ++ [Print Stderr (load_failure_text (json_get "path" items) e) false])
           (world st1)).
Proof.
  intros Hfail Hexc. destruct (load_attempt_failure _ _ _ _ _ Hfail) as [Hd Ht].
  unfold handle_load, try_except. rewrite Hfail, Hexc.
  unfold print, emit. now rewrite Hd, Ht.
Qed.



End LoadCommand.

(** ** The dataset table *)

Section DatasetTable.

Context {rt : Runtime}.

Implicit Types (items : list (string * pyval)) (st : state).

(** A successful attempt: the reader returned a table and the name is
    hashable. *)
Lemma load_attempt_success path var_name st st1 :
  load_attempt path var_name st = (Normal tt, st1) ->
  exists k df w,
    key_of var_name = Some k
    /\ read_table path st = (Normal df, mkState (dataframes st) (trace st) w)
    /\ st1 = mkState (dict_set k df (dataframes st))
                     (trace st ++ [Print Stdout (load_success_text path var_name) false])
                     w.
Proof.
  rewrite load_attempt_unfold. pose proof (read_table_frame path st) as [Hd Ht].
  destruct (read_table path st) as [[df|e] [d t w]]; cbn in Hd, Ht; subst; [|discriminate].
  destruct (key_of var_name) as [k|]; [|discriminate].
  intros H; inversion H; subst. now exists k, df, w.
Qed.



End DatasetTable.

(** ** Executing code *)

Section ExecuteCommand.

Context {rt : Runtime}.

Implicit Types (items : list (string * pyval)) (st : state) (d : pydict Frame).

(** Merging the items of a dictionary into another one: every key of the
    merged dictionary wins, the other keys stay. *)
Lemma merged_lookup d (g : pydict (pyobj Frame Obj)) k :
  NoDup (dict_keys d) ->
  dict_get k (fold_left (fun g kv => dict_set (fst kv) (FrameObj (snd kv)) g) d g)
  = match dict_get k d with
    | Some df => Some (FrameObj df)
    | None => dict_get k g
    end.
Proof.
  revert g; induction d as [|[k0 v0] d IH]; intros g Hnd; cbn; [reflexivity|].
  inversion Hnd as [|? ? Hout Hnd']; subst. rewrite (IH _ Hnd').
  destruct (pykey_eq_dec k0 k) as [->|Hne].
  - apply dict_get_None in Hout. rewrite Hout. apply dict_get_set_same.
  - destruct (dict_get k d); [reflexivity|]. apply dict_get_set_other. congruence.
Qed.

Lemma exec_globals_lookup d k :
  NoDup (dict_keys d) ->
  dict_get k (exec_globals d)
  = match dict_get k d with
    | Some df => Some (FrameObj df)
    | None => if pykey_eq_dec (KStr "pd") k then Some PandasModule else None
    end.
Proof. intros Hnd. unfold exec_globals. now rewrite merged_lookup. Qed.




End ExecuteCommand.

(** ** Errors of executed code, reports, and the turn as a whole *)

Section Recovery.

Context {rt : Runtime}.

Implicit Types (items : list (string * pyval)) (st : state).

(** A turn that decodes an object and dispatches on a string. *)
Lemma process_line_dispatch line items st :
  json_loads line = Normal (PDict items) ->
  process_line line st =
  match dispatch items (mkState (dataframes st) (trace st ++ [ReadLine line]) (world st)) with
  | (Normal _, st1) =>
      (Normal tt, mkState (dataframes st1) (trace st1 ++ [sentinel_event]) (world st1))
  | (Raised e, st1) =>
      if is_JSONDecodeError e
      then (Normal tt,
            mkState (dataframes st1)
                    (trace st1 ++ [Print Stderr (invalid_json_text e) false; sentinel_event])
                    (world st1))
      else (Raised e, st1)
  end.
Proof.
  intros Hdec. rewrite process_line_unfold. unfold try_except.
  rewrite (decode_and_dispatch_object _ _ _ Hdec).
  destruct (dispatch items _) as [[[]|e] st1]; [reflexivity|].
  destruct (is_JSONDecodeError e); [|reflexivity].
  cbn. now rewrite <- app_assoc.
Qed.


(** The two ways a GetInfo on a hashable name ends when nothing raises. *)
Lemma handle_get_info_present items st k df info_str description_str head_str w' :
  key_of (json_get "varName" items) = Some k ->
  dict_get k (dataframes st) = Some df ->
  renders df (world st) info_str description_str head_str w' ->
  handle_get_info items st =
  (Normal tt,
   mkState (dataframes st)
           (trace st ++ [Print Stdout
                           (report_text (json_get "varName" items)
                                        info_str description_str head_str) false])
           w').
Proof.
  intros Hk Hdf (w1 & w2 & Hi & Hd & Hh).
  unfold handle_get_info, bind, lookup_frame. rewrite Hk, Hdf.
  unfold call_lib. cbn [world dataframes trace]. rewrite Hi.
  cbn [world dataframes trace]. rewrite Hd. cbn [world dataframes trace]. rewrite Hh.
  reflexivity.
Qed.



End Recovery.

Section Turn.

Context {rt : Runtime}.

Implicit Types (items : list (string * pyval)) (st : state).






End Turn.

(** * The kernel at work on the runtime of [Demo] *)

Section Runs.

Import Demo.

(** A load, a report, a line that is no command of the protocol: the
    third turn never reaches its marker. *)
Example session_trace :
  main (map encode [load_data_as_df; get_info_df; []; get_info_df]) start
  = (Raised (mkExc TypeError "argument of type 'NoneType' is not iterable"),
     mkState [(KStr "df", numbers)]
       [ ReadLine (encode load_data_as_df);
         Print Stdout "Successfully loaded 'data.csv' into DataFrame 'df'." false;
         sentinel_event;
         ReadLine (encode get_info_df);
         Print Stdout (report_text (PStr "df") "Data columns: x, y" "count of x, y"
                                   "rows of x, y") false;
         sentinel_event;
         ReadLine "{}" ]
       disk).
Proof. reflexivity. Qed.

(** An assignment made by executed code lands in the dictionary of the
    call and not in the table. *)
Example assignment_stays_in_the_copy :
  let st := holding [(KStr "df", numbers)] in
  dict_get (KStr "df")
    (exec_final_globals (py_exec "df = pd" (exec_globals (dataframes st)) (world st)))
  = Some PandasModule
  /\ dataframes (snd (execute_code (PStr "df = pd") st)) = [(KStr "df", numbers)].
Proof. split; reflexivity. Qed.

(** The four readers are four routines: a CSV file is a table to
    [read_csv] and an error to the other three. *)
Example readers_differ :
  fst (read_csv "data.csv" disk) = Normal numbers
  /\ fst (read_excel "data.csv" disk) <> Normal numbers
  /\ fst (read_json "data.csv" disk) <> Normal numbers
  /\ fst (read_parquet "data.csv" disk) <> Normal numbers.
Proof. repeat split; discriminate. Qed.

(** [True], [1] and [1.0] are one key; [0.5] is another. *)
Example numeric_keys :
  key_of (PBool true) = key_of (PInt 1)
  /\ key_of (PInt 1) = key_of (PFloat (S754_finite false 4503599627370496 (-52)))
  /\ key_of (PInt 1) <> key_of (PFloat (S754_finite false 4503599627370496 (-53))).
Proof. repeat split. discriminate. Qed.

End Runs.

(** ** Where the stronger readings fail *)

Section Refutations.

Import Demo.



(** C3, refuted as stated. The type "LoadCommandExecuteCommand" contains
    the Execute tag, yet the command is loaded, not executed. *)
Lemma execute_tag_shadowed_by_load :
  let items := items_of load_and_execute in
  dispatch items start = handle_load items start
  /\ dispatch items start <> execute_code (json_get "code" items) start
  /\ ~ execute_tag_selects_execute.
Proof.
  cbn zeta. split; [reflexivity|]. split; [discriminate|].
  intros H.
  specialize (H runtime (items_of load_and_execute) "LoadCommandExecuteCommand" start
                eq_refl eq_refl).
  discriminate H.
Qed.




End Refutations.

(** ** The theorems at work *)

Section Instances.

Import Demo.

Lemma dispatch_precedence_witness :
  dispatch (items_of load_and_execute) start
  = handle_load (items_of load_and_execute) start
  /\ dispatch (items_of execute_and_get_info) start
     = execute_code (PStr "df = pd") start.
Proof.
  split.
  - exact (proj1 (dispatch_precedence (items_of load_and_execute)
                    "LoadCommandExecuteCommand" start eq_refl) eq_refl).
  - exact (proj2 (dispatch_precedence (items_of execute_and_get_info)
                    "ExecuteCommandGetInfoCommand" start eq_refl) eq_refl eq_refl).
Defined.

Lemma dispatch_by_containment_witness :
  dispatch (items_of load_data_as_df) start = handle_load (items_of load_data_as_df) start
  /\ dispatch (items_of run_boom) start = execute_code (PStr "raise ValueError('boom')") start
  /\ dispatch (items_of get_info_df) start = handle_get_info (items_of get_info_df) start
  /\ process_line (encode ping) start
     = (Normal tt, mkState [] [ReadLine (encode ping); sentinel_event] disk).
Proof.
  split; [|split; [|split]].
  - exact (proj1 (dispatch_by_containment (items_of load_data_as_df) "LoadCommand" start
                    eq_refl) eq_refl).
  - exact (proj1 (proj2 (dispatch_by_containment (items_of run_boom) "ExecuteCommand" start
                           eq_refl)) eq_refl eq_refl).
  - exact (proj1 (proj2 (proj2 (dispatch_by_containment (items_of get_info_df)
                                  "GetInfoCommand" start eq_refl)))
             eq_refl eq_refl eq_refl).
  - exact (proj2 (proj2 (proj2 (proj2 (dispatch_by_containment (items_of ping)
                                         "PingCommand" start eq_refl)))
                    eq_refl eq_refl eq_refl)
             (encode ping) eq_refl).
Defined.









End Instances.

(** * More of the kernel's behaviour *)

(** ** Relations every run respects *)

Section Invariants.

Context {rt : Runtime}.

(** A relation that holds across each primitive step of the kernel (an
    event of its own, a call into pandas, an assignment to [dataframes],
    a call of [exec]) and composes. *)
Variable R : state -> state -> Prop.

Hypothesis R_refl : forall st, R st st.
Hypothesis R_trans : forall a b c, R a b -> R b c -> R a c.
Hypothesis R_event :
  forall st ev, kernel_event ev ->
    R st (mkState (dataframes st) (trace st ++ [ev]) (world st)).
Hypothesis R_world :
  forall st w, R st (mkState (dataframes st) (trace st) w).
Hypothesis R_store :
  forall st k df, R st (mkState (dict_set k df (dataframes st)) (trace st) (world st)).
Hypothesis R_exec :
  forall st writes w,
    R st (mkState (dataframes st)
                  (trace st ++ map (fun x => Wrote (fst x) (snd x)) writes) w).

Lemma respects_ret {A} (a : A) : respects R (ret a).
Proof. intros st. apply R_refl. Qed.

Lemma respects_raise {A} (e : exc) : respects R (@raise rt A e).
Proof. intros st. apply R_refl. Qed.

Lemma respects_lift_outcome {A} (r : outcome A) : respects R (lift_outcome r).
Proof. intros st. apply R_refl. Qed.

Lemma respects_bind {A B} (c : M A) (k : A -> M B) :
  respects R c -> (forall a, respects R (k a)) -> respects R (bind c k).
Proof.
  intros Hc Hk st. unfold bind. specialize (Hc st).
  destruct (c st) as [[a|e] st1]; cbn [snd] in *; [|exact Hc].
  eapply R_trans; [exact Hc | apply Hk].
Qed.

Lemma respects_try_except {A} catches (body : M A) handler :
  respects R body -> (forall e, respects R (handler e)) ->
  respects R (try_except catches body handler).
Proof.
  intros Hb Hh st. unfold try_except. specialize (Hb st).
  destruct (body st) as [[a|e] st1]; cbn [snd] in *; [exact Hb|].
  destruct (catches e); [|exact Hb].
  eapply R_trans; [exact Hb | apply Hh].
Qed.

Lemma respects_emit ev : kernel_event ev -> respects R (emit ev).
Proof. intros Hev st. apply R_event, Hev. Qed.

Lemma respects_call_lib {A} (f : World -> outcome A * World) : respects R (call_lib f).
Proof.
  intros st. unfold call_lib. destruct (f (world st)) as [r w]. apply R_world.
Qed.

Lemma respects_execute_code code : respects R (execute_code code).
Proof.
  apply respects_try_except.
  - intros st. destruct code; try apply R_refl. apply R_exec.
  - intros e. apply respects_emit. constructor.
Qed.

Lemma respects_handle_load items : respects R (handle_load items).
Proof.
  apply respects_try_except.
  - apply respects_bind.
    + intros st. destruct (json_get "path" items); try apply R_refl. cbn [read_table].
      repeat match goal with
             | |- context [if ?b then _ else _] => destruct b
             end; first [apply respects_call_lib | apply R_refl].
    + intros df. apply respects_bind.
      * intros st. unfold store_frame. destruct (key_of _); [apply R_store | apply R_refl].
      * intros _. apply respects_emit. constructor.
  - intros e. apply respects_emit. constructor.
Qed.

Lemma respects_handle_get_info items : respects R (handle_get_info items).
Proof.
  apply respects_bind.
  - intros st. unfold lookup_frame. destruct (key_of _); apply R_refl.
  - intros [df|].
    + repeat (apply respects_bind; [apply respects_call_lib|]; intros ?).
      apply respects_emit. constructor.
    + apply respects_emit. constructor.
Qed.

Lemma respects_dispatch items : respects R (dispatch items).
Proof.
  unfold dispatch.
  apply respects_bind; [apply respects_lift_outcome|].
  intros [|]; [apply respects_handle_load|].
  apply respects_bind; [apply respects_lift_outcome|].
  intros [|]; [apply respects_execute_code|].
  apply respects_bind; [apply respects_lift_outcome|].
  intros [|]; [apply respects_handle_get_info | apply respects_ret].
Qed.

Lemma respects_process_line line : respects R (process_line line).
Proof.
  apply respects_bind; [apply respects_emit; constructor|]. intros _.
  apply respects_bind; [|intros _; apply respects_emit; constructor].
  apply respects_try_except; [|intros e; apply respects_emit; constructor].
  apply respects_bind; [apply respects_lift_outcome|].
  intros []; try apply respects_raise. apply respects_dispatch.
Qed.

(** Whatever the input and however the loop ends, the state it leaves is
    related to the state it started from. *)
Lemma respects_main lines : respects R (main lines).
Proof.
  induction lines as [|line lines IH]; [apply respects_ret|].
  apply respects_bind; [apply respects_process_line | intros _; exact IH].
Qed.

End Invariants.

(** ** What a run writes *)

Section Output.

Context {rt : Runtime}.

Implicit Types (lines : list string) (st : state).

(** Every message of the kernel on the error channel carries the tag,
    every message on the normal channel is a load confirmation or a
    report, and the marker is the only text printed with [flush=True]. *)
Lemma kernel_event_shape ev :
  kernel_event ev ->
  match ev with
  | ReadLine _ | Wrote _ _ => True
  | Print Stderr text flush =>
      String.prefix "PYTHON_ERROR: " text = true /\ flush = false
  | Print Stdout text true => text = sentinel
  | Print Stdout text false =>
      String.prefix "Successfully loaded '" text = true
      \/ String.prefix "--- METADATA FOR " text = true
  end.
Proof.
  intros [line| |path var_name|path e|e|v i d h|v|e]; unfold sentinel_event; cbv beta iota.
  - exact I.
  - reflexivity.
  - left. apply prefix_append.
    exists (fmt path ++ "' into DataFrame '" ++ fmt var_name ++ "'.")%string. reflexivity.
  - split; [|reflexivity]. apply prefix_append.
    exists ("Failed to load data from " ++ fmt path ++ ". Error: " ++ exc_msg e)%string.
    reflexivity.
  - split; [|reflexivity]. apply prefix_append. exists (exc_msg e). reflexivity.
  - right. apply prefix_append. eexists. unfold report_text. reflexivity.
  - split; [|reflexivity]. apply prefix_append.
    exists ("DataFrame '" ++ fmt v ++ "' not found.")%string. reflexivity.
  - split; [|reflexivity]. apply prefix_append.
    exists ("Invalid JSON received. " ++ exc_msg e)%string. reflexivity.
Qed.

(** A run adds to the trace events of the kernel and writes of executed
    code, nothing else. *)
Lemma main_adds_kernel_events lines st :
  exists evs,
    trace (snd (main lines st)) = trace st ++ evs
    /\ Forall (fun ev => kernel_event ev \/ exists ch t, ev = Wrote ch t) evs.
Proof.
  pose (R := fun a b : state =>
               exists evs, trace b = trace a ++ evs
                 /\ Forall (fun ev => kernel_event ev \/ exists ch t, ev = Wrote ch t) evs).
  apply (respects_main R); unfold R; clear.
  - intros st. exists []. split; [now rewrite app_nil_r | constructor].
  - intros a b c (e1 & T1 & F1) (e2 & T2 & F2). exists (e1 ++ e2).
    rewrite T2, T1, app_assoc. split; [reflexivity | now apply Forall_app].
  - intros st ev Hev. exists [ev]. split; [reflexivity|].
    constructor; [now left | constructor].
  - intros st w. exists []. split; [cbn; now rewrite app_nil_r | constructor].
  - intros st k df. exists []. split; [cbn; now rewrite app_nil_r | constructor].
  - intros st writes w. eexists. split; [reflexivity|].
    apply Forall_forall. intros ev Hin. apply in_map_iff in Hin as ([ch t] & <- & _).
    right. now exists ch, t.
Qed.

(** X1. Whatever the input, a run adds to the trace only events of the
    kernel's fixed vocabulary and the writes of executed code: each
    message on the error channel begins with the tag "PYTHON_ERROR: " and
    is not flushed, each message on the normal channel is a load
    confirmation or a report, and the only text printed with [flush=True]
    is the marker. *)
Theorem kernel_output_vocabulary lines st :
  exists evs,
    trace (snd (main lines st)) = trace st ++ evs
    /\ forall ev, In ev evs ->
         match ev with
         | ReadLine _ | Wrote _ _ => True
         | Print Stderr text flush =>
             String.prefix "PYTHON_ERROR: " text = true /\ flush = false
         | Print Stdout text true => text = sentinel
         | Print Stdout text false =>
             String.prefix "Successfully loaded '" text = true
             \/ String.prefix "--- METADATA FOR " text = true
         end.
Proof.
  destruct (main_adds_kernel_events lines st) as (evs & Htr & Hall). exists evs.
  split; [exact Htr|].
  intros ev Hin. rewrite Forall_forall in Hall.
  destruct (Hall ev Hin) as [Hk|(ch & t & ->)]; [now apply kernel_event_shape | exact I].
Qed.


End Output.

(** ** How much a turn prints *)

Section Messages.

Context {rt : Runtime}.

Lemma count_messages_app (a b : list io_event) :
  count_messages (a ++ b) = (count_messages a + count_messages b)%nat.
Proof. unfold count_messages. now rewrite filter_app, length_app. Qed.

Lemma silent_still {A} (c : M A) :
  (forall st, trace (snd (c st)) = trace st) -> silent c.
Proof. intros H st. exists []. now rewrite app_nil_r, H. Qed.

Lemma silent_bind {A B} (c : M A) (k : A -> M B) :
  silent c -> (forall a, silent (k a)) -> silent (bind c k).
Proof.
  intros Hc Hk st. unfold bind. destruct (Hc st) as (e1 & T1 & N1).
  destruct (c st) as [[a|e] st1]; cbn [snd] in *; [|now exists e1].
  destruct (Hk a st1) as (e2 & T2 & N2). exists (e1 ++ e2).
  rewrite T2, T1, app_assoc, count_messages_app, N1, N2. now split.
Qed.

Lemma silent_call_lib {A} (f : World -> outcome A * World) : silent (call_lib f).
Proof.
  apply silent_still. intros st. unfold call_lib. now destruct (f (world st)).
Qed.

Lemma silent_read_table path : silent (read_table path).
Proof. apply silent_still. intros st. apply read_table_frame. Qed.

Lemma silent_store_frame var_name df : silent (store_frame var_name df).
Proof.
  apply silent_still. intros st. unfold store_frame. now destruct (key_of var_name).
Qed.

Lemma silent_lookup_frame var_name : silent (lookup_frame var_name).
Proof.
  apply silent_still. intros st. unfold lookup_frame. now destruct (key_of var_name).
Qed.

Lemma silent_run_exec code g : silent (run_exec code g).
Proof.
  destruct code; try (apply silent_still; reflexivity).
  intros st. eexists. split; [reflexivity|].
  unfold count_messages. induction (exec_writes _) as [|w ws IH]; [reflexivity | exact IH].
Qed.

Lemma frugal_of_silent {A} (c : M A) : silent c -> frugal c.
Proof.
  intros H st. destruct (H st) as (evs & T & N). exists evs. split; [exact T|].
  destruct (fst (c st)); lia.
Qed.

Lemma frugal_print ch text : frugal (print ch text).
Proof. intros st. exists [Print ch text false]. split; [reflexivity | cbn; lia]. Qed.

Lemma frugal_bind {A B} (c : M A) (k : A -> M B) :
  silent c -> (forall a, frugal (k a)) -> frugal (bind c k).
Proof.
  intros Hc Hk st. unfold bind. destruct (Hc st) as (e1 & T1 & N1).
  destruct (c st) as [[a|e] st1]; cbn [fst snd] in *; [|now exists e1].
  destruct (Hk a st1) as (e2 & T2 & N2). exists (e1 ++ e2).
  rewrite T2, T1, app_assoc, count_messages_app, N1. split; [reflexivity | exact N2].
Qed.

(** A handler that prints one message, after a body that printed none
    when it raised. *)
Lemma frugal_try_except {A} catches (body : M A) (handler : exc -> M A) :
  frugal body -> (forall e, frugal (handler e)) ->
  frugal (try_except catches body handler).
Proof.
  intros Hb Hh st. unfold try_except. destruct (Hb st) as (e1 & T1 & N1).
  destruct (body st) as [[a|e] st1]; cbn [fst snd] in *; [now exists e1|].
  destruct (catches e); [|now exists e1].
  destruct (Hh e st1) as (e2 & T2 & N2). exists (e1 ++ e2).
  rewrite T2, T1, app_assoc, count_messages_app, N1. split; [reflexivity | exact N2].
Qed.

Lemma frugal_execute_code code : frugal (execute_code code).
Proof.
  apply frugal_try_except.
  - apply frugal_of_silent. intros st. apply silent_run_exec.
  - intros e. apply (frugal_print Stderr).
Qed.

Lemma frugal_handle_load items : frugal (handle_load items).
Proof.
  apply frugal_try_except.
  - apply frugal_bind; [apply silent_read_table|]. intros df.
    apply frugal_bind; [apply silent_store_frame|]. intros _. apply frugal_print.
  - intros e. apply (frugal_print Stderr).
Qed.

Lemma frugal_handle_get_info items : frugal (handle_get_info items).
Proof.
  apply frugal_bind; [apply silent_lookup_frame|]. intros [df|].
  - repeat (apply frugal_bind; [apply silent_call_lib|]; intros ?). apply frugal_print.
  - apply (frugal_print Stderr).
Qed.

Lemma frugal_dispatch items : frugal (dispatch items).
Proof.
  unfold dispatch.
  apply frugal_bind; [apply silent_still; reflexivity|].
  intros [|]; [apply frugal_handle_load|].
  apply frugal_bind; [apply silent_still; reflexivity|].
  intros [|]; [apply frugal_execute_code|].
  apply frugal_bind; [apply silent_still; reflexivity|].
  intros [|]; [apply frugal_handle_get_info|].
  apply frugal_of_silent, silent_still. reflexivity.
Qed.

Lemma frugal_guarded_body line :
  frugal (try_except is_JSONDecodeError (decode_and_dispatch line)
            (fun e => print Stderr (invalid_json_text e))).
Proof.
  apply frugal_try_except; [|intros e; apply (frugal_print Stderr)].
  apply frugal_bind; [apply silent_still; reflexivity|].
  intros []; try (apply frugal_of_silent, silent_still; reflexivity).
  apply frugal_dispatch.
Qed.

(** X3. Between the read of a line and its marker the kernel prints at
    most one message; and when an exception leaves the turn it has
    printed none: a line that ends the loop gets neither a diagnostic nor
    the marker. *)
Theorem one_message_per_turn line st :
  exists body,
    trace (snd (process_line line st))
    = trace st ++ ReadLine line :: body
      ++ match fst (process_line line st) with
         | Normal _ => [sentinel_event]
         | Raised _ => []
         end
    /\ match fst (process_line line st) with
       | Normal _ => (count_messages body <= 1)%nat
       | Raised _ => count_messages body = 0%nat
       end.
Proof.
  rewrite process_line_unfold.
  set (st0 := mkState (dataframes st) (trace st ++ [ReadLine line]) (world st)).
  destruct (frugal_guarded_body line st0) as (body & Htr & Hn). exists body.
  destruct (try_except _ _ _ st0) as [[[]|e] st1]; cbn [fst snd trace] in *.
  - split; [|exact Hn]. rewrite Htr. cbn. now rewrite <- !app_assoc.
  - split; [|exact Hn]. rewrite Htr. cbn. now rewrite app_nil_r, <- app_assoc.
Qed.

End Messages.

(** ** Lines outside the protocol *)

Section Edges.

Context {rt : Runtime}.

Implicit Types (items : list (string * pyval)) (st : state) (line : string).

(** X4. A line that is valid JSON but no object (a list, a number, a
    string, [null], a boolean) ends the loop: [command_data.get] raises an
    [AttributeError] that the turn does not catch, nothing is printed,
    the table and the world are as before, and no later line is read. *)
Theorem non_object_line_escapes line v st :
  json_loads line = Normal v ->
  is_object v = false ->
  let e := mkExc AttributeError ("'" ++ type_name v ++ "' object has no attribute 'get'") in
  process_line line st = (Raised e, after_read st line)
  /\ forall rest, main (line :: rest) st = (Raised e, after_read st line).
Proof.
  intros Hdec Hobj e.
  assert (process_line line st = (Raised e, after_read st line)) as H.
  { rewrite process_line_unfold. unfold try_except, decode_and_dispatch, bind, lift_outcome.
    rewrite Hdec. destruct v; try discriminate; reflexivity. }
  split; [exact H|]. intros rest. now rewrite main_cons, H.
Qed.

(** X5. A command whose [type] is missing or is not a container ([null],
    a boolean, a number) ends the loop: the first membership test raises a
    [TypeError] that the turn does not catch; no handler runs, nothing is
    printed, and the table and the world are as before. *)
Theorem uncontained_type_escapes line items st :
  json_loads line = Normal (PDict items) ->
  is_container (json_get "type" items) = false ->
  let e := mkExc TypeError
             ("argument of type '" ++ type_name (json_get "type" items)
              ++ "' is not iterable") in
  process_line line st = (Raised e, after_read st line)
  /\ forall rest, main (line :: rest) st = (Raised e, after_read st line).
Proof.
  intros Hdec Hty e.
  assert (process_line line st = (Raised e, after_read st line)) as H.
  { rewrite (process_line_dispatch _ _ _ Hdec). unfold dispatch, bind, lift_outcome.
    destruct (json_get "type" items); try discriminate; reflexivity. }
  split; [exact H|]. intros rest. now rewrite main_cons, H.
Qed.

Lemma existsb_tag (tag : string) (l : list pyval) :
  existsb (fun x => match x with
                    | PStr s => String.eqb s tag
                    | _ => false
                    end) l = true
  <-> In (PStr tag) l.
Proof.
  rewrite existsb_exists. split.
  - intros (x & Hin & Hx). destruct x; try discriminate.
    apply String.eqb_eq in Hx. now subst.
  - intros Hin. exists (PStr tag). split; [exact Hin | apply String.eqb_refl].
Qed.

(** X6. When [type] is a JSON array the tags are matched against its
    elements, not inside them: an array with the element "LoadCommand"
    runs the Load handler, and an array without it runs no Load, whatever
    longer strings it holds. *)
Theorem array_type_matches_elements items (l : list pyval) st :
  json_get "type" items = PList l ->
  (In (PStr "LoadCommand") l -> dispatch items st = handle_load items st)
  /\ (~ In (PStr "LoadCommand") l -> In (PStr "ExecuteCommand") l ->
      dispatch items st = execute_code (json_get "code" items) st)
  /\ (~ In (PStr "LoadCommand") l -> ~ In (PStr "ExecuteCommand") l ->
      In (PStr "GetInfoCommand") l ->
      dispatch items st = handle_get_info items st)
  /\ (~ In (PStr "LoadCommand") l -> ~ In (PStr "ExecuteCommand") l ->
      ~ In (PStr "GetInfoCommand") l ->
      dispatch items st = (Normal tt, st)).
Proof.
  intros Hty.
  assert (forall tag, In (PStr tag) l -> py_in tag (PList l) = Normal true) as Hyes.
  { intros tag H. cbn. apply existsb_tag in H. now rewrite H. }
  assert (forall tag, ~ In (PStr tag) l -> py_in tag (PList l) = Normal false) as Hno.
  { intros tag H. cbn. rewrite <- existsb_tag in H. now destruct (existsb _ l). }
  unfold dispatch, bind, lift_outcome. rewrite Hty.
  split; [|split; [|split]].
  - intros H. now rewrite (Hyes _ H).
  - intros H1 H2. now rewrite (Hno _ H1), (Hyes _ H2).
  - intros H1 H2 H3. now rewrite (Hno _ H1), (Hno _ H2), (Hyes _ H3).
  - intros H1 H2 H3. now rewrite (Hno _ H1), (Hno _ H2), (Hno _ H3).
Qed.

(** X7. A Load whose [path] is missing or is no string fails without
    touching a file: the kernel prints the failure diagnostic with the
    [AttributeError] of [path.endswith], and the table and the world are
    as before. *)
Theorem load_without_string_path items st :
  is_string (json_get "path" items) = false ->
  handle_load items st =
  (Normal tt,
   mkState (dataframes st)
           (trace st ++ [Print Stderr
                           ("PYTHON_ERROR: Failed to load data from "
                            ++ py_str (json_get "path" items) ++ ". Error: '"
                            ++ type_name (json_get "path" items)
                            ++ "' object has no attribute 'endswith'") false])
           (world st)).
Proof.
  intros Hp. unfold handle_load, try_except, load_attempt, bind.
  destruct (json_get "path" items); try discriminate; reflexivity.
Qed.

(** X8. A Load under an unhashable name (a JSON array or object) reads
    the file first and fails at the assignment: the world is the one the
    reader left, the table is as before, and the diagnostic carries the
    [TypeError]. *)
Theorem load_under_unhashable_name items st df st1 :
  key_of (json_get "varName" items) = None ->
  read_table (json_get "path" items) st = (Normal df, st1) ->
  handle_load items st =
  (Normal tt,
   mkState (dataframes st)
           (trace st ++ [Print Stderr
                           (load_failure_text (json_get "path" items)
                              (mkExc TypeError
                                 ("unhashable type: '"
                                  ++ type_name (json_get "varName" items) ++ "'"))) false])
           (world st1)).
Proof.
  intros Hk Hread. apply handle_load_failure; [|reflexivity].
  rewrite load_attempt_unfold, Hread, Hk. reflexivity.
Qed.

(** X9. An Execute whose [code] is missing or is no string runs nothing:
    [exec] refuses its argument, the kernel prints that [TypeError] as a
    diagnostic, and the table and the world are as before. *)
Theorem execute_without_source code st :
  is_string code = false ->
  execute_code code st =
  (Normal tt,
   mkState (dataframes st)
           (trace st ++ [Print Stderr
                           "PYTHON_ERROR: exec() arg 1 must be a string, bytes or code object"
                           false])
           (world st)).
Proof. intros Hc. destruct code; try discriminate; reflexivity. Qed.

(** X10. A GetInfo under an unhashable name ends the loop: the lookup in
    the table raises a [TypeError] outside any handler that would catch
    it, so neither a report nor the not-found diagnostic nor the marker is
    printed. *)
Theorem get_info_unhashable_name_escapes line items ty st :
  json_loads line = Normal (PDict items) ->
  json_get "type" items = PStr ty ->
  str_contains "LoadCommand" ty = false ->
  str_contains "ExecuteCommand" ty = false ->
  str_contains "GetInfoCommand" ty = true ->
  key_of (json_get "varName" items) = None ->
  let e := mkExc TypeError
             ("unhashable type: '" ++ type_name (json_get "varName" items) ++ "'") in
  process_line line st = (Raised e, after_read st line)
  /\ forall rest, main (line :: rest) st = (Raised e, after_read st line).
Proof.
  intros Hdec Hty Hl He Hg Hk e.
  assert (process_line line st = (Raised e, after_read st line)) as H.
  { rewrite (process_line_dispatch _ _ _ Hdec), (dispatch_string _ _ _ Hty), Hl, He, Hg.
    unfold handle_get_info, bind, lookup_frame. rewrite Hk. reflexivity. }
  split; [exact H|]. intros rest. now rewrite main_cons, H.
Qed.

End Edges.

(** ** Commands one after the other *)

Section Sessions.

Context {rt : Runtime}.

Implicit Types (items : list (string * pyval)) (st : state) (lines : list string).

(** X11. A GetInfo after a successful Load finds the table that was
    loaded, under any name equal as a dictionary key to the one it was
    stored under ([1], [1.0] and [true] are one name): when the report
    renders it is the report of that table, and the not-found diagnostic
    is not printed. *)
Theorem load_then_get_info items items' st st1 :
  load_attempt (json_get "path" items) (json_get "varName" items) st = (Normal tt, st1) ->
  key_of (json_get "varName" items') = key_of (json_get "varName" items) ->
  exists df w,
    read_table (json_get "path" items) st
    = (Normal df, mkState (dataframes st) (trace st) w)
    /\ handle_get_info items' st1
       <> (Normal tt,
           mkState (dataframes st1)
                   (trace st1 ++ [Print Stderr (not_found_text (json_get "varName" items')) false])
                   (world st1))
    /\ forall info_str description_str head_str w',
         renders df (world st1) info_str description_str head_str w' ->
         handle_get_info items' st1 =
         (Normal tt,
          mkState (dataframes st1)
                  (trace st1 ++ [Print Stdout
                                   (report_text (json_get "varName" items')
                                                info_str description_str head_str) false])
                  w').
Proof.
  intros Hload Hkey.
  destruct (load_attempt_success _ _ _ _ Hload) as (k & df & w & Hk & Hread & ->).
  rewrite Hk in Hkey. exists df, w. split; [exact Hread|].
  assert (dict_get k (dict_set k df (dataframes st)) = Some df) as Hget
      by apply dict_get_set_same.
  split.
  - unfold handle_get_info, bind, lookup_frame. rewrite Hkey. cbn [dataframes].
    rewrite Hget. unfold call_lib. cbn [world dataframes trace].
    destruct (df_info df w) as [[i|e] w1]; [|discriminate].
    cbn [world dataframes trace].
    destruct (df_describe df w1) as [[d|e] w2]; [|discriminate].
    cbn [world dataframes trace].
    destruct (df_head df w2) as [[h|e] w3]; [|discriminate].
    unfold print, emit. cbn [world dataframes trace]. intros H. inversion H as [[Htr Hw]].
    apply app_inv_head in Htr. discriminate Htr.
  - intros i d h w' Hr.
    now apply handle_get_info_present with (k := k) (df := df).
Qed.

(** X12. Code executed after a successful Load sees the loaded table
    under its name, and still sees every other dataset that was in the
    table before. *)
Theorem loaded_dataset_is_visible_to_code path var_name st st1 :
  NoDup (dict_keys (dataframes st)) ->
  load_attempt path var_name st = (Normal tt, st1) ->
  exists k df,
    key_of var_name = Some k
    /\ fst (read_table path st) = Normal df
    /\ dict_get k (exec_globals (dataframes st1)) = Some (FrameObj df)
    /\ forall k' df', k' <> k ->
         dict_get k' (dataframes st) = Some df' ->
         dict_get k' (exec_globals (dataframes st1)) = Some (FrameObj df').
Proof.
  intros Hnd Hload.
  destruct (load_attempt_success _ _ _ _ Hload) as (k & df & w & Hk & Hread & ->).
  exists k, df. cbn [dataframes].
  assert (NoDup (dict_keys (dict_set k df (dataframes st)))) as Hnd'
      by now apply dict_set_NoDup.
  split; [exact Hk|]. split; [now rewrite Hread|]. split.
  - now rewrite exec_globals_lookup, dict_get_set_same.
  - intros k' df' Hne Hget.
    now rewrite exec_globals_lookup, dict_get_set_other, Hget.
Qed.




(** X15. When an exception ends the loop, the input splits into the lines
    handled before (each with its marker), the line whose turn raised the
    exception (read, without marker), and the lines after it, which are
    never read: the trace holds exactly as many markers as lines were
    handled before. *)
Theorem escape_ends_the_loop lines st e st' :
  main lines st = (Raised e, st') ->
  exists handled line rest st1,
    lines = handled ++ line :: rest
    /\ main handled st = (Normal tt, st1)
    /\ process_line line st1 = (Raised e, st')
    /\ count_sentinels (trace st')
       = (count_sentinels (trace st) + List.length handled)%nat
    /\ exists body,
         trace st' = trace st1 ++ ReadLine line :: body
         /\ forallb quiet body = true.
Proof.
  revert st; induction lines as [|line lines IH]; intros st Hrun; [discriminate|].
  rewrite main_cons in Hrun.
  destruct (process_line_shape line st) as (body & Hq & _ & Htr).
  destruct (process_line line st) as [[[]|e1] st1] eqn:Hline; cbn [fst snd] in Htr.
  - destruct (IH st1 Hrun) as (handled & bad & rest & st2 & -> & Hh & Hbad & Hcount & Hrest).
    exists (line :: handled), bad, rest, st2. repeat split; try assumption.
    + rewrite main_cons, Hline. exact Hh.
    + rewrite Hcount. cbn [List.length].
      rewrite Htr, count_sentinels_app, count_sentinels_turn by assumption. lia.
  - inversion Hrun; subst. exists [], line, lines, st. repeat split; try assumption.
    + rewrite Htr. change (ReadLine line :: body) with ([ReadLine line] ++ body).
      rewrite !count_sentinels_app, (count_sentinels_quiet _ Hq). cbn. lia.
    + now exists body.
Qed.



End Sessions.

Section Reloading.

Context {rt : Runtime}.

Lemma dict_set_twice {V} (k : pykey) (v1 v2 : V) (d : pydict V) :
  dict_set k v2 (dict_set k v1 d) = dict_set k v2 d.
Proof.
  induction d as [|[k' v'] d IH]; cbn.
  - destruct (pykey_eq_dec k k); [reflexivity | contradiction].
  - destruct (pykey_eq_dec k' k) as [E|N]; cbn.
    + destruct (pykey_eq_dec k' k); [reflexivity | contradiction].
    + destruct (pykey_eq_dec k' k); [contradiction | now rewrite IH].
Qed.


(** X18. The last Load wins: after two successful Loads under the same
    name the table is what the second Load alone would have made of the
    table before the first; nothing of the first table is left. *)
Theorem second_load_overwrites path path' var_name var_name' (st st1 st2 : state) :
  load_attempt path var_name st = (Normal tt, st1) ->
  load_attempt path' var_name' st1 = (Normal tt, st2) ->
  key_of var_name' = key_of var_name ->
  exists k df2 w,
    key_of var_name = Some k
    /\ read_table path' st1 = (Normal df2, mkState (dataframes st1) (trace st1) w)
    /\ dataframes st2 = dict_set k df2 (dataframes st)
    /\ dict_get k (dataframes st2) = Some df2.
Proof.
  intros H1 H2 Hkey.
  destruct (load_attempt_success _ _ _ _ H1) as (k & df1 & w1 & Hk & _ & ->).
  destruct (load_attempt_success _ _ _ _ H2) as (k' & df2 & w2 & Hk' & Hread & ->).
  rewrite Hk, Hk' in Hkey. inversion Hkey; subst k'.
  exists k, df2, w2. cbn [dataframes] in *. repeat split; try assumption.
  - apply dict_set_twice.
  - apply dict_get_set_same.
Qed.

End Reloading.

(** ** These properties at work *)

Section MoreInstances.

Import Demo.

Lemma non_object_line_escapes_witness :
  json_loads (Runtime := Loose.runtime) "[]" = Normal (PList [])
  /\ main (rt := Loose.runtime) ["[]"; encode get_info_df] Loose.start
     = (Raised (mkExc AttributeError "'list' object has no attribute 'get'"),
        @mkState Loose.runtime [] [ReadLine "[]"] disk).
Proof.
  split; [reflexivity|].
  exact (proj2 (non_object_line_escapes (rt := Loose.runtime) "[]" (PList []) Loose.start
                  eq_refl eq_refl) [encode get_info_df]).
Defined.

Lemma uncontained_type_escapes_witness :
  json_loads (Runtime := Loose.runtime) Loose.untyped = Normal (PDict [("type", PInt 7)])
  /\ process_line (rt := Loose.runtime) Loose.untyped Loose.start
     = (Raised (mkExc TypeError "argument of type 'int' is not iterable"),
        @mkState Loose.runtime [] [ReadLine Loose.untyped] disk).
Proof.
  split; [reflexivity|].
  exact (proj1 (uncontained_type_escapes (rt := Loose.runtime) Loose.untyped
                  [("type", PInt 7)] Loose.start eq_refl eq_refl)).
Defined.

Lemma array_type_matches_elements_witness :
  dispatch Loose.load_by_array start = handle_load Loose.load_by_array start
  /\ dispatch [("type", PList [PStr "xLoadCommandx"])] start = (Normal tt, start).
Proof.
  split.
  - refine (proj1 (array_type_matches_elements Loose.load_by_array
                     [PStr "xLoadCommandx"; PStr "LoadCommand"] start eq_refl) _).
    cbn. tauto.
  - refine (proj2 (proj2 (proj2 (array_type_matches_elements
                                   [("type", PList [PStr "xLoadCommandx"])]
                                   [PStr "xLoadCommandx"] start eq_refl))) _ _ _);
      cbn; intros [H|[]]; discriminate H.
Defined.

Lemma load_without_string_path_witness :
  handle_load Loose.load_nothing start
  = (Normal tt,
     mkState []
       [Print Stderr ("PYTHON_ERROR: Failed to load data from None. "
                      ++ "Error: 'NoneType' object has no attribute 'endswith'") false]
       disk).
Proof. exact (load_without_string_path Loose.load_nothing start eq_refl). Defined.

Lemma load_under_unhashable_name_witness :
  handle_load Loose.load_as_array start
  = (Normal tt,
     mkState []
       [Print Stderr ("PYTHON_ERROR: Failed to load data from data.csv. "
                      ++ "Error: unhashable type: 'list'") false]
       disk).
Proof.
  exact (load_under_unhashable_name Loose.load_as_array start numbers start eq_refl eq_refl).
Defined.

Lemma execute_without_source_witness :
  execute_code (json_get "code" (items_of get_info_df)) start
  = (Normal tt,
     mkState []
       [Print Stderr "PYTHON_ERROR: exec() arg 1 must be a string, bytes or code object" false]
       disk).
Proof. exact (execute_without_source PNone start eq_refl). Defined.

Lemma get_info_unhashable_name_escapes_witness :
  process_line (rt := Loose.runtime) Loose.get_info_of_array Loose.start
  = (Raised (mkExc TypeError "unhashable type: 'list'"),
     @mkState Loose.runtime [] [ReadLine Loose.get_info_of_array] disk).
Proof.
  exact (proj1 (get_info_unhashable_name_escapes (rt := Loose.runtime)
                  Loose.get_info_of_array
                  [("type", PStr "GetInfoCommand"); ("varName", PList [])]
                  "GetInfoCommand" Loose.start
                  eq_refl eq_refl eq_refl eq_refl eq_refl eq_refl)).
Defined.

Lemma load_then_get_info_witness :
  let st1 := snd (load_attempt (PStr "data.csv") (PInt 1) start) in
  dataframes st1 = [(KNum 1 0, numbers)]
  /\ handle_get_info Loose.get_info_true st1
     = (Normal tt,
        mkState (dataframes st1)
          (trace st1 ++ [Print Stdout (report_text (PBool true) "Data columns: x, y"
                                         "count of x, y" "rows of x, y") false])
          disk).
Proof.
  cbn zeta. split; [reflexivity|].
  destruct (load_then_get_info Loose.load_as_one Loose.get_info_true start
              (snd (load_attempt (PStr "data.csv") (PInt 1) start)) eq_refl eq_refl)
    as (df & w & Hread & _ & Hreport).
  inversion Hread; subst df w.
  apply Hreport. exists disk, disk. repeat split.
Defined.

Lemma loaded_dataset_is_visible_to_code_witness :
  let st := holding [(KStr "old", [])] in
  let st1 := snd (load_attempt (PStr "data.csv") (PStr "df") st) in
  dict_get (KStr "df") (exec_globals (dataframes st1)) = Some (FrameObj numbers)
  /\ dict_get (KStr "old") (exec_globals (dataframes st1)) = Some (FrameObj []).
Proof.
  cbn zeta.
  assert (NoDup (dict_keys (dataframes (holding [(KStr "old", [])])))) as Hnd.
  { repeat constructor. cbn. tauto. }
  destruct (loaded_dataset_is_visible_to_code (PStr "data.csv") (PStr "df")
              (holding [(KStr "old", [])])
              (snd (load_attempt (PStr "data.csv") (PStr "df") (holding [(KStr "old", [])])))
              Hnd eq_refl) as (k & df & Hk & Hread & Hnew & Hold).
  inversion Hk; subst k. inversion Hread; subst df. split.
  - rewrite Hnew. reflexivity.
  - apply Hold; [discriminate | reflexivity].
Defined.

Lemma escape_ends_the_loop_witness :
  let lines := map encode [load_data_as_df; []; get_info_df] in
  fst (main lines start) = Raised (mkExc TypeError "argument of type 'NoneType' is not iterable")
  /\ exists handled line rest,
       lines = handled ++ line :: rest
       /\ count_sentinels (trace (snd (main lines start))) = List.length handled.
Proof.
  cbn zeta.
  assert (main (map encode [load_data_as_df; []; get_info_df]) start
          = (Raised (mkExc TypeError "argument of type 'NoneType' is not iterable"),
             snd (main (map encode [load_data_as_df; []; get_info_df]) start))) as Hrun.
  { vm_compute. reflexivity. }
  split; [now rewrite Hrun|].
  destruct (escape_ends_the_loop _ _ _ _ Hrun)
    as (handled & line & rest & st1 & Hsplit & _ & _ & Hcount & _).
  exists handled, line, rest. split; [exact Hsplit | exact Hcount].
Defined.

Lemma second_load_overwrites_witness :
  let st1 := snd (load_attempt (PStr "empty.json") (PStr "df") start) in
  let st2 := snd (load_attempt (PStr "data.csv") (PStr "df") st1) in
  dataframes st1 = [(KStr "df", [])]
  /\ dataframes st2 = [(KStr "df", numbers)].
Proof.
  cbn zeta. split; [reflexivity|].
  destruct (second_load_overwrites (PStr "empty.json") (PStr "data.csv") (PStr "df") (PStr "df")
              start
              (snd (load_attempt (PStr "empty.json") (PStr "df") start))
              (snd (load_attempt (PStr "data.csv") (PStr "df")
                      (snd (load_attempt (PStr "empty.json") (PStr "df") start))))
              eq_refl eq_refl eq_refl) as (k & df2 & w & Hk & Hread & Htable & _).
  inversion Hk; subst k. inversion Hread; subst df2 w. exact Htable.
Defined.

End MoreInstances.
